(** * The systemd service controller of juju (service/systemd/service.go)

    A shallow embedding of the Go package [systemd]: the lister
    [ListServices], the [Service] controller ([Installed], [Exists],
    [Running], [Start], [Stop], [StopAndRemove], [Remove], [Install],
    [UpdateConfig]) and the seams through which they reach D-Bus and the
    file system ([newConn], [newChan], [removeAll], [mkdirAll],
    [createFile]).

    Every call through a seam is a step of a small monad that threads the
    state of the host and writes the call, with its outcome, to a log; the
    theorems speak about the returned value, the final state and the log. *)

From Stdlib Require Import List String Ascii Bool Arith NArith Lia.
Import ListNotations.
Open Scope string_scope.
Open Scope list_scope.

(** ** Go strings: the two functions of package [strings] the lister uses *)

Module strings.

(** [len(s) >= len(suffix) && s[len(s)-len(suffix):] == suffix] *)
Definition HasSuffix (s suffix : string) : bool :=
  Nat.leb (String.length suffix) (String.length s) &&
  String.eqb
    (substring (String.length s - String.length suffix)
               (String.length suffix) s)
    suffix.

(** [if HasSuffix(s, suffix) { return s[:len(s)-len(suffix)] }; return s] *)
Definition TrimSuffix (s suffix : string) : string :=
  if HasSuffix s suffix
  then substring 0 (String.length s - String.length suffix) s
  else s.

End strings.

(** ** Package [fmt]: the fragment of [Sprintf] the controller relies on

    Literal text, [%s] applied to a string operand and [%%].  A format
    outside this fragment (any other verb, a missing or a surplus
    operand) is not modelled: the result is [None]. *)

Module fmt.

Fixpoint Sprintf (format : string) (args : list string) : option string :=
  match format with
  | EmptyString =>
      match args with
      | [] => Some EmptyString
      | _ :: _ => None
      end
  | String c rest =>
      if Ascii.eqb c "%" then
        match rest with
        | String d rest' =>
            if Ascii.eqb d "s" then
              match args with
              | a :: args' => option_map (append a) (Sprintf rest' args')
              | [] => None
              end
            else if Ascii.eqb d "%" then
              option_map (String "%") (Sprintf rest' args)
            else None
        | EmptyString => None
        end
      else option_map (String c) (Sprintf rest args)
  end.

(** No formatting directive occurs in [s]. *)
Fixpoint plain (s : string) : bool :=
  match s with
  | EmptyString => true
  | String c rest => negb (Ascii.eqb c "%") && plain rest
  end.

End fmt.

(** ** Package [github.com/juju/errors]

    A Go [error] is [option error]: [None] is [nil]. *)

Module errors.

Inductive error : Type :=
| New (msg : string)                      (* raised by a collaborator *)
| Errorf (format : string) (args : list string)
| NotFoundf (format : string) (args : list string)
| Traced (prev : error)
| Annotated (prev : error) (message : string).

(** [errors.Trace(err)]: [nil] stays [nil]. *)
Definition Trace (err : option error) : option error :=
  option_map Traced err.

(** [errors.Annotate(err, message)]: [nil] stays [nil]. *)
Definition Annotate (err : option error) (message : string) : option error :=
  option_map (fun e => Annotated e message) err.

(** [err.Error()] *)
Fixpoint Error (e : error) : option string :=
  match e with
  | New msg => Some msg
  | Errorf format args => fmt.Sprintf format args
  | NotFoundf format args => fmt.Sprintf (format ++ " not found") args
  | Traced prev => Error prev
  | Annotated prev message =>
      option_map (fun m => (message ++ ": " ++ m)%string) (Error prev)
  end.

(** [errors.IsNotFound(err)]: decided on the cause of the error. *)
Fixpoint IsNotFound (e : error) : bool :=
  match e with
  | New _ => false
  | Errorf _ _ => false
  | NotFoundf _ _ => true
  | Traced prev => IsNotFound prev
  | Annotated prev _ => IsNotFound prev
  end.

End errors.

Import errors.

(** ** Package [github.com/coreos/go-systemd/dbus] *)

Module dbus.

(** The fields of [dbus.UnitStatus] that the controller reads. *)
Record UnitStatus : Type := {
  Name : string;
  LoadState : string;
  ActiveState : string
}.

End dbus.

(** A [[]byte]; where the source tests a slice against [nil] the model
    uses [option bytes]. *)
Definition bytes : Type := list Byte.byte.

(** ** What the file takes from the rest of its package

    [common.Conf], [normalize], [validate], [serialize] and
    [deserializeOptions] are declared in other files of the repository;
    this file only calls them.  They are the fields of a class, so every
    theorem holds for any implementation of them. *)

Class Package : Type := {
  (** [common.Conf] *)
  common_Conf : Type;
  (** the field [ExecStart] of [common.Conf] *)
  ExecStart : common_Conf -> string;
  (** the zero value of [common.Conf] *)
  zero_Conf : common_Conf;
  (** [reflect.DeepEqual] at [common.Conf] *)
  DeepEqual : common_Conf -> common_Conf -> bool;
  (** [unit.UnitOption] *)
  UnitOption : Type;
  normalize : common_Conf -> string -> common_Conf * option bytes;
  validate : string -> common_Conf -> option error;
  serialize : string -> common_Conf -> error + bytes;
  deserializeOptions : list UnitOption -> error + common_Conf;
  (** [path.Join] *)
  path_Join : list string -> string
}.

(** The struct [Service].  The embedded [common.Service] contributes
    [Name] and [Conf]; [Script] is a slice that may be [nil]. *)
Record Service `{Package} : Type := {
  Name : string;
  Conf : common_Conf;
  ConfName : string;
  UnitName : string;
  Dirname : string;
  Script : option bytes
}.

(** ** The host: D-Bus and the file system

    The interface [dbusAPI] and the package variables [findDataDir],
    [newConn], [newChan], [removeAll], [mkdirAll], [createFile].  Each
    operation takes the state of the host and returns its result with the
    next state.  A Go result [(T, error)] is [error + T]; results that
    every caller discards (job ids, change lists) are left out.

    [getUnitOptions] is a function of the package defined in another
    file; it reads the properties of a unit over the connection, and it is
    taken here as one read operation of the host.

    [recv ch] is the receive [<-ch]: [None] when nothing is ever sent on
    the channel, so that the receiver blocks for ever. *)

Class Host `{Package} : Type := {
  World : Type;
  Conn : Type;
  Chan : Type;
  findDataDir : World -> (error + string) * World;
  newConn : World -> (error + Conn) * World;
  newChan : World -> Chan * World;
  recv : Chan -> World -> option string * World;
  Close : Conn -> World -> World;
  ListUnits : Conn -> World -> (error + list dbus.UnitStatus) * World;
  StartUnit : Conn -> string -> string -> Chan -> World -> option error * World;
  StopUnit : Conn -> string -> string -> Chan -> World -> option error * World;
  EnableUnitFiles :
    Conn -> list string -> bool -> bool -> World -> option error * World;
  DisableUnitFiles :
    Conn -> list string -> bool -> World -> option error * World;
  getUnitOptions :
    Conn -> string -> string -> World -> (error + list UnitOption) * World;
  removeAll : string -> World -> option error * World;
  mkdirAll : string -> World -> option error * World;
  createFile : string -> bytes -> N -> World -> option error * World
}.

(** ** The log of calls *)

Inductive Event : Type :=
| EvFindDataDir (err : option error)
| EvNewConn (err : option error)
| EvClose
| EvListUnits (err : option error)
| EvGetUnitOptions (unit section : string) (err : option error)
| EvNewChan
| EvStartUnit (unit mode : string) (err : option error)
| EvStopUnit (unit mode : string) (err : option error)
| EvRecv (status : option string)
| EvEnableUnitFiles (files : list string) (runtime force : bool)
                    (err : option error)
| EvDisableUnitFiles (files : list string) (runtime : bool)
                     (err : option error)
| EvRemoveAll (name : string) (err : option error)
| EvMkdirAll (dirname : string) (err : option error)
| EvCreateFile (filename : string) (data : bytes) (perm : N)
               (err : option error).

(** Calls that only look: open or close a connection, list, read. *)
Definition is_query (e : Event) : bool :=
  match e with
  | EvFindDataDir _ | EvNewConn _ | EvClose | EvListUnits _
  | EvGetUnitOptions _ _ _ => true
  | _ => false
  end.

(** A start request: a channel for it, the request, the wait. *)
Definition is_start (e : Event) : bool :=
  match e with
  | EvStartUnit _ _ _ => true
  | _ => false
  end.

Definition is_stop (e : Event) : bool :=
  match e with
  | EvStopUnit _ _ _ => true
  | _ => false
  end.

Definition is_disable (e : Event) : bool :=
  match e with
  | EvDisableUnitFiles _ _ _ => true
  | _ => false
  end.

Definition is_delete (e : Event) : bool :=
  match e with
  | EvRemoveAll _ _ => true
  | _ => false
  end.

(** Writing the new unit: directory, files, enabling. *)
Definition is_write (e : Event) : bool :=
  match e with
  | EvMkdirAll _ _ | EvCreateFile _ _ _ _ => true
  | _ => false
  end.

Definition is_enable (e : Event) : bool :=
  match e with
  | EvEnableUnitFiles _ _ _ _ => true
  | _ => false
  end.

Definition is_newConn (e : Event) : bool :=
  match e with
  | EvNewConn _ => true
  | _ => false
  end.

Definition is_ListUnits (e : Event) : bool :=
  match e with
  | EvListUnits _ => true
  | _ => false
  end.

Definition is_recv (e : Event) : bool :=
  match e with
  | EvRecv _ => true
  | _ => false
  end.

(** How many calls of the kind [Q] the log [t] holds. *)
Definition count (Q : Event -> bool) (t : list Event) : nat :=
  List.length (filter Q t).

(** Taking the old unit down. *)
Definition is_teardown (e : Event) : bool :=
  is_stop e || is_disable e || is_delete e.

(** Putting the new unit in place. *)
Definition is_setup (e : Event) : bool :=
  is_write e || is_enable e.

Definition err_of {A : Type} (r : error + A) : option error :=
  match r with
  | inl e => Some e
  | inr _ => None
  end.

(** ** The monad of the controller *)

(** A call returns, or blocks for ever on a channel. *)
Inductive outcome (A : Type) : Type :=
| Returns (a : A)
| Blocks.
Arguments Returns {A} a.
Arguments Blocks {A}.

Section Controller.

Context {P : Package} {H : Host}.

Definition M (A : Type) : Type := World -> outcome A * World * list Event.

Definition ret {A : Type} (a : A) : M A :=
  fun w => (Returns a, w, []).

Definition bind {A B : Type} (m : M A) (k : A -> M B) : M B :=
  fun w =>
    match m w with
    | (Returns a, w1, t1) =>
        match k a w1 with
        | (r, w2, t2) => (r, w2, t1 ++ t2)
        end
    | (Blocks, w1, t1) => (Blocks, w1, t1)
    end.

Notation "x <- m ;; k" := (bind m (fun x => k))
  (at level 61, m at next level, right associativity).
Notation "m ;;; k" := (bind m (fun _ => k))
  (at level 61, right associativity).

(** One call through a seam: the operation and the entry it logs. *)
Definition call {A : Type} (op : World -> A * World) (ev : A -> Event) : M A :=
  fun w => let (a, w') := op w in (Returns a, w', [ev a]).

Definition do_findDataDir : M (error + string) :=
  call findDataDir (fun r => EvFindDataDir (err_of r)).
Definition do_newConn : M (error + Conn) :=
  call newConn (fun r => EvNewConn (err_of r)).
Definition do_Close (conn : Conn) : M unit :=
  call (fun w => (tt, Close conn w)) (fun _ => EvClose).
Definition do_ListUnits (conn : Conn) : M (error + list dbus.UnitStatus) :=
  call (ListUnits conn) (fun r => EvListUnits (err_of r)).
Definition do_getUnitOptions (conn : Conn) (unit section : string)
  : M (error + list UnitOption) :=
  call (getUnitOptions conn unit section)
       (fun r => EvGetUnitOptions unit section (err_of r)).
Definition do_newChan : M Chan :=
  call newChan (fun _ => EvNewChan).
Definition do_StartUnit (conn : Conn) (unit mode : string) (ch : Chan)
  : M (option error) :=
  call (StartUnit conn unit mode ch) (EvStartUnit unit mode).
Definition do_StopUnit (conn : Conn) (unit mode : string) (ch : Chan)
  : M (option error) :=
  call (StopUnit conn unit mode ch) (EvStopUnit unit mode).
Definition do_EnableUnitFiles (conn : Conn) (files : list string)
  (runtime force : bool) : M (option error) :=
  call (EnableUnitFiles conn files runtime force)
       (EvEnableUnitFiles files runtime force).
Definition do_DisableUnitFiles (conn : Conn) (files : list string)
  (runtime : bool) : M (option error) :=
  call (DisableUnitFiles conn files runtime)
       (EvDisableUnitFiles files runtime).
Definition do_removeAll (name : string) : M (option error) :=
  call (removeAll name) (EvRemoveAll name).
Definition do_mkdirAll (dirname : string) : M (option error) :=
  call (mkdirAll dirname) (EvMkdirAll dirname).
Definition do_createFile (filename : string) (data : bytes) (perm : N)
  : M (option error) :=
  call (createFile filename data perm) (EvCreateFile filename data perm).

(** [status := <-statusCh]: a receive that never completes blocks the
    caller. *)
Definition receive (ch : Chan) : M string :=
  fun w =>
    match recv ch w with
    | (Some status, w') => (Returns status, w', [EvRecv (Some status)])
    | (None, w') => (Blocks, w', [EvRecv None])
    end.

(** [defer conn.Close()]: the connection is closed when the body
    returns. *)
Definition defer_Close {A : Type} (conn : Conn) (body : M A) : M A :=
  r <- body ;; do_Close conn ;;; ret r.

(** The three parts of a run. *)
Definition result {A : Type} (x : outcome A * World * list Event)
  : outcome A := fst (fst x).
Definition final {A : Type} (x : outcome A * World * list Event)
  : World := snd (fst x).
Definition log {A : Type} (x : outcome A * World * list Event)
  : list Event := snd x.

(** Every call that [m] logs, from any state, is of the kind [P]. *)
Definition emits {A : Type} (P : Event -> bool) (m : M A) : Prop :=
  forall w, Forall (fun e => P e = true) (log (m w)).

(** The host in state [w] answers look-ups without changing state. *)
Definition quiet (w : World) : Prop :=
  snd (newConn w) = w /\
  (forall c, Close c w = w) /\
  (forall c, snd (ListUnits c w) = w) /\
  (forall c unit section, snd (getUnitOptions c unit section w) = w).

(** *** The lister *)

(** The loop of [ListServices] over the units, appending to [services]. *)
Fixpoint ListServices_loop (units : list dbus.UnitStatus)
  (services : list string) : list string :=
  match units with
  | [] => services
  | unit :: rest =>
      if negb (strings.HasSuffix (dbus.Name unit) ".service")
      then ListServices_loop rest services
      else
        let name := strings.TrimSuffix (dbus.Name unit) ".service" in
        ListServices_loop rest (services ++ [name])
  end.

Definition ListServices : M (error + list string) :=
  c <- do_newConn ;;
  match c with
  | inl err => ret (inl (Traced err))
  | inr conn =>
      defer_Close conn
        (r <- do_ListUnits conn ;;
         match r with
         | inl err => ret (inl (Traced err))
         | inr units => ret (inr (ListServices_loop units []))
         end)
  end.

(** *** The controller: observations *)

(** The loop of [Installed]: [if name == s.Service.Name { return true }]. *)
Fixpoint Installed_loop (names : list string) (wanted : string) : bool :=
  match names with
  | [] => false
  | name :: rest =>
      if String.eqb name wanted then true else Installed_loop rest wanted
  end.

Definition Installed (s : Service) : M bool :=
  r <- ListServices ;;
  match r with
  | inl _ => ret false
  | inr names => ret (Installed_loop names (Name s))
  end.

(** [readConf]: on failure the caller never looks at the configuration
    returned next to the error, so the result is a sum. *)
Definition readConf (s : Service) : M (error + common_Conf) :=
  c <- do_newConn ;;
  match c with
  | inl err => ret (inl (Traced err))
  | inr conn =>
      defer_Close conn
        (r <- do_getUnitOptions conn (UnitName s) "Service" ;;
         match r with
         | inl err => ret (inl (Traced err))
         | inr opts =>
             match deserializeOptions opts with
             | inl err => ret (inl (Traced err))
             | inr conf => ret (inr conf)
             end
         end)
  end.

Definition check (s : Service) : M (bool * option error) :=
  r <- readConf s ;;
  match r with
  | inl err => ret (false, Trace (Some err))
  | inr conf => ret (DeepEqual (Conf s) conf, None)
  end.

Definition Exists (s : Service) : M bool :=
  r <- check s ;;
  match r with
  | (_, Some _) => ret false
  | (same, None) => ret same
  end.

(** The loop of [Running]: the first unit with the name decides. *)
Fixpoint Running_loop (units : list dbus.UnitStatus) (unitName : string)
  : bool :=
  match units with
  | [] => false
  | unit :: rest =>
      if String.eqb (dbus.Name unit) unitName
      then String.eqb (dbus.LoadState unit) "loaded" &&
           String.eqb (dbus.ActiveState unit) "active"
      else Running_loop rest unitName
  end.

Definition Running (s : Service) : M bool :=
  c <- do_newConn ;;
  match c with
  | inl _ => ret false
  | inr conn =>
      defer_Close conn
        (r <- do_ListUnits conn ;;
         match r with
         | inl _ => ret false
         | inr units => ret (Running_loop units (UnitName s))
         end)
  end.

(** *** The controller: actions *)

Definition Start (s : Service) : M (option error) :=
  installed <- Installed s ;;
  if negb installed
  then ret (Some (NotFoundf ("service " ++ Name s) []))
  else
    running <- Running s ;;
    if running then ret None
    else
      c <- do_newConn ;;
      match c with
      | inl err => ret (Trace (Some err))
      | inr conn =>
          defer_Close conn
            (statusCh <- do_newChan ;;
             err <- do_StartUnit conn (UnitName s) "fail" statusCh ;;
             match err with
             | Some _ => ret (Trace err)
             | None =>
                 status <- receive statusCh ;;
                 if negb (String.eqb status "done")
                 then ret (Some (Errorf "failed to start service %s"
                                        [Name s]))
                 else ret None
             end)
      end.

Definition Stop (s : Service) : M (option error) :=
  running <- Running s ;;
  if negb running then ret None
  else
    c <- do_newConn ;;
    match c with
    | inl err => ret (Trace (Some err))
    | inr conn =>
        defer_Close conn
          (statusCh <- do_newChan ;;
           err <- do_StopUnit conn (UnitName s) "fail" statusCh ;;
           match err with
           | Some _ => ret (Trace err)
           | None =>
               status <- receive statusCh ;;
               if negb (String.eqb status "done")
               then ret (Some (Errorf "failed to stop service %s"
                                      [Name s]))
               else ret err
           end)
    end.

Definition Remove (s : Service) : M (option error) :=
  installed <- Installed s ;;
  if negb installed then ret None
  else
    c <- do_newConn ;;
    match c with
    | inl err => ret (Trace (Some err))
    | inr conn =>
        defer_Close conn
          (err <- do_DisableUnitFiles conn [UnitName s] false ;;
           match err with
           | Some _ => ret (Trace err)
           | None =>
               err <- do_removeAll (Dirname s) ;;
               match err with
               | Some _ => ret (Trace err)
               | None => ret None
               end
           end)
    end.

Definition StopAndRemove (s : Service) : M (option error) :=
  err <- Stop s ;;
  match err with
  | Some _ => ret (Trace err)
  | None =>
      err <- Remove s ;;
      ret (Trace err)
  end.

(** [0755] and [0644] *)
Definition perm_0755 : N := 493.
Definition perm_0644 : N := 420.

Definition writeConf (s : Service) : M (string * option error) :=
  match serialize (UnitName s) (Conf s) with
  | inl err => ret ("", Trace (Some err))
  | inr data =>
      err <- do_mkdirAll (Dirname s) ;;
      match err with
      | Some _ => ret ("", Trace err)
      | None =>
          let filename := path_Join [Dirname s; ConfName s] in
          script_err <-
            match Script s with
            | Some script =>
                let scriptPath := ExecStart (Conf s) in
                do_createFile scriptPath script perm_0755
            | None => ret None
            end ;;
          match script_err with
          | Some _ => ret (filename, Trace script_err)
          | None =>
              err <- do_createFile filename data perm_0644 ;;
              match err with
              | Some _ => ret (filename, Trace err)
              | None => ret (filename, None)
              end
          end
      end
  end.

(** The statements of [Install] after its [if s.Installed()] block. *)
Definition Install_unit (s : Service) : M (option error) :=
  r <- writeConf s ;;
  let (filename, err) := r in
  match err with
  | Some _ => ret (Trace err)
  | None =>
      c <- do_newConn ;;
      match c with
      | inl err => ret (Trace (Some err))
      | inr conn =>
          defer_Close conn
            (err <- do_EnableUnitFiles conn [filename] false true ;;
             ret (Trace err))
      end
  end.

Definition Install (s : Service) : M (option error) :=
  installed <- Installed s ;;
  if installed then
    r <- check s ;;
    match r with
    | (_, Some err) => ret (Trace (Some err))
    | (true, None) => ret None
    | (false, None) =>
        (* An old copy is already running so stop it first. *)
        err <- StopAndRemove s ;;
        match err with
        | Some _ => ret (Annotate err "systemd: could not remove old service")
        | None => Install_unit s
        end
    end
  else Install_unit s.

(** *** The desired configuration

    [setConf] and [UpdateConfig] call none of the seams: they are pure
    functions of the controller and the configuration, and the host is
    not among their arguments.  The assignment through the receiver is
    the [Service] they return. *)

Definition setConf (s : Service) (conf : common_Conf)
  : Service * option error :=
  let scriptPath := path_Join [Dirname s; "exec-start.sh"] in
  let (normalConf, data) := normalize conf scriptPath in
  match validate (Name s) normalConf with
  | Some err => (s, Trace (Some err))
  | None =>
      ({| Name := Name s; Conf := normalConf; ConfName := ConfName s;
          UnitName := UnitName s; Dirname := Dirname s; Script := data |},
       None)
  end.

Definition UpdateConfig (s : Service) (conf : common_Conf) : Service :=
  fst (setConf s conf). (* We ignore any error (i.e. when validation fails). *)

(** [NewService]: [nil] with the error when the data directory is not
    found, otherwise the service, with the error of [setConf] if any. *)
Definition NewService (name : string) (conf : common_Conf)
  : M (option Service * option error) :=
  let confName := (name ++ ".service")%string in
  r <- do_findDataDir ;;
  match r with
  | inl err => ret (None, Trace (Some err))
  | inr dataDir =>
      let dirname := path_Join [dataDir; "init"; name] in
      let service :=
        {| Name := name; Conf := zero_Conf; ConfName := confName;
           UnitName := confName; Dirname := dirname; Script := None |} in
      let (service', err) := setConf service conf in
      match err with
      | Some _ => ret (Some service', Trace err)
      | None => ret (Some service', None)
      end
  end.

End Controller.

(** ** The commands of a remote install *)

(** The line feed, ["\n"] in the source. *)
Definition newline : string := String (ascii_of_nat 10) "".

Section Remote.

Context {P : Package}.

(** [InstallCommands].  The bytes of the unit file are an operand of
    [%s], which writes them as they are.  A command is [None] when its
    format is outside the modelled fragment of [Sprintf]. *)
Definition InstallCommands (s : Service) : error + list (option string) :=
  match serialize (UnitName s) (Conf s) with
  | inl err => inl (Traced err)
  | inr data =>
      let commands :=
        [fmt.Sprintf
           ("cat >> /tmp/%s << 'EOF'" ++ newline ++ "%sEOF" ++ newline)
           [ConfName s; string_of_list_byte data];
         Some ("systemd start /tmp/" ++ ConfName s)%string] in
      inr commands
  end.

End Remote.

(** ** Connections in a log *)

(** A connection was opened; a connection was closed. *)
Definition is_opened (e : Event) : bool :=
  match e with
  | EvNewConn None => true
  | _ => false
  end.

Definition is_Close (e : Event) : bool :=
  match e with
  | EvClose => true
  | _ => false
  end.

Definition is_GetUnitOptions (e : Event) : bool :=
  match e with
  | EvGetUnitOptions _ _ _ => true
  | _ => false
  end.

Section Scoping.

Context {P : Package} {H : Host}.

(** A log written with [d] connections open at its start ([d] is 0
    or 1): at no point is more than one connection open or a connection
    closed that is not open; at the end of a call that returned, what was
    opened has been closed; at the end of a call that blocked, one
    connection is open. *)
Definition within (d : nat) (blocked : bool) (t : list Event) : Prop :=
  (forall p q,
      t = p ++ q ->
      count is_Close p <= d + count is_opened p <= 1 + count is_Close p) /\
  (if blocked
   then d + count is_opened t = 1 + count is_Close t
   else count is_opened t = count is_Close t).

Definition blocked {A : Type} (r : outcome A) : bool :=
  match r with
  | Returns _ => false
  | Blocks => true
  end.

(** Every log of [m], run with [d] connections open, is as above. *)
Definition tracks {A : Type} (d : nat) (m : M A) : Prop :=
  forall w, within d (blocked (result (m w))) (log (m w)).

(** The connections of [m] are scoped to the call. *)
Definition scoped {A : Type} (m : M A) : Prop := tracks 0 m.

End Scoping.

(** ** The steps of writing and enabling a unit, as the source orders them *)

Section Steps.

Context {P : Package}.

(** The write of the script, when the service has one. *)
Definition script_file (s : Service) : list Event :=
  match Script s with
  | Some script => [EvCreateFile (ExecStart (Conf s)) script perm_0755 None]
  | None => []
  end.

(** The log and the result of writing and enabling the unit of [s]:
    serialize, make the directory, write the script if there is one,
    write the unit file, connect, enable; the first step that fails ends
    the log and gives the result. *)
Inductive installs (s : Service)
  : list Event -> outcome (option error) -> Prop :=
| installs_not_serialized e :
    serialize (UnitName s) (Conf s) = inl e ->
    installs s [] (Returns (Some (Traced (Traced e))))
| installs_no_directory data e :
    serialize (UnitName s) (Conf s) = inr data ->
    installs s [EvMkdirAll (Dirname s) (Some e)]
             (Returns (Some (Traced (Traced e))))
| installs_no_script data script e :
    serialize (UnitName s) (Conf s) = inr data ->
    Script s = Some script ->
    installs s
      [EvMkdirAll (Dirname s) None;
       EvCreateFile (ExecStart (Conf s)) script perm_0755 (Some e)]
      (Returns (Some (Traced (Traced e))))
| installs_no_unit_file data e :
    serialize (UnitName s) (Conf s) = inr data ->
    installs s
      (EvMkdirAll (Dirname s) None :: script_file s ++
       [EvCreateFile (path_Join [Dirname s; ConfName s]) data perm_0644
          (Some e)])
      (Returns (Some (Traced (Traced e))))
| installs_no_connection data e :
    serialize (UnitName s) (Conf s) = inr data ->
    installs s
      (EvMkdirAll (Dirname s) None :: script_file s ++
       [EvCreateFile (path_Join [Dirname s; ConfName s]) data perm_0644 None;
        EvNewConn (Some e)])
      (Returns (Some (Traced e)))
| installs_enabled data err :
    serialize (UnitName s) (Conf s) = inr data ->
    installs s
      (EvMkdirAll (Dirname s) None :: script_file s ++
       [EvCreateFile (path_Join [Dirname s; ConfName s]) data perm_0644 None;
        EvNewConn None;
        EvEnableUnitFiles [path_Join [Dirname s; ConfName s]] false true err;
        EvClose])
      (Returns (Trace err)).

(** The log and the result of [Stop] after its look-up [Running]
    returned [true]: connect, make the channel, ask for the stop in mode
    "fail", wait for the completion value, close. *)
Inductive stops (s : Service)
  : list Event -> outcome (option error) -> Prop :=
| stops_no_connection e :
    stops s [EvNewConn (Some e)] (Returns (Some (Traced e)))
| stops_refused e :
    stops s
      [EvNewConn None; EvNewChan;
       EvStopUnit (UnitName s) "fail" (Some e); EvClose]
      (Returns (Some (Traced e)))
| stops_never_completed :
    stops s
      [EvNewConn None; EvNewChan;
       EvStopUnit (UnitName s) "fail" None; EvRecv None]
      Blocks
| stops_done :
    stops s
      [EvNewConn None; EvNewChan;
       EvStopUnit (UnitName s) "fail" None; EvRecv (Some "done"%string);
       EvClose]
      (Returns None)
| stops_not_done status :
    status <> "done"%string ->
    stops s
      [EvNewConn None; EvNewChan;
       EvStopUnit (UnitName s) "fail" None; EvRecv (Some status);
       EvClose]
      (Returns (Some (Errorf "failed to stop service %s" [Name s]))).

(** The log and the result of [Remove] after its look-up [Installed]
    returned [true]: connect, disable the unit file, delete the
    directory, close. *)
Inductive removes (s : Service)
  : list Event -> outcome (option error) -> Prop :=
| removes_no_connection e :
    removes s [EvNewConn (Some e)] (Returns (Some (Traced e)))
| removes_not_disabled e :
    removes s
      [EvNewConn None;
       EvDisableUnitFiles [UnitName s] false (Some e); EvClose]
      (Returns (Some (Traced e)))
| removes_deleted d :
    removes s
      [EvNewConn None; EvDisableUnitFiles [UnitName s] false None;
       EvRemoveAll (Dirname s) d; EvClose]
      (Returns (Trace d)).

End Steps.

(** ** What the lister is to return, in the words of its description

    The names of the units whose raw name carries the suffix, with the
    suffix taken off, in the order of the units; the others are left
    out. *)
Inductive Listed : list dbus.UnitStatus -> list string -> Prop :=
| Listed_nil : Listed [] []
| Listed_keep (u : dbus.UnitStatus) (n : string) units names :
    dbus.Name u = (n ++ ".service")%string ->
    Listed units names ->
    Listed (u :: units) (n :: names)
| Listed_skip (u : dbus.UnitStatus) units names :
    (forall n, dbus.Name u <> (n ++ ".service")%string) ->
    Listed units names ->
    Listed (u :: units) names.

(** ** What a caller sees of a start or stop request, as described

    [err] is the outcome of the request, [t] the log of the call and [r]
    what the call returns.  A request that fails makes the call fail with
    its error, without a wait.  After a request that went through the
    call waits for one completion value: with "done" it succeeds, with
    any other value it fails with [failure], and while no value comes it
    does not return. *)
Definition settled (t : list Event) (r : outcome (option error))
  (failure : error) (err : option error) : Prop :=
  match err with
  | Some e => r = Returns (Some (Traced e)) /\ count is_recv t = 0
  | None =>
      exists st,
        In (EvRecv st) t /\ count is_recv t = 1 /\
        match st with
        | None => r = Blocks
        | Some status =>
            (r = Returns None <-> status = "done"%string) /\
            (status <> "done"%string -> r = Returns (Some failure))
        end
  end.

(** ** A scripted host, for examples

    A small manager that answers from a table, in the manner of the stub
    connection of a test: the outcomes of the coming connection attempts,
    the units it lists, the options it serves for each unit, and the
    completion value it sends for a start or stop job. *)

Module Scripted.

(** Modelled from the spec: [common.Conf] and the functions
    [normalize], [validate], [serialize] and [deserializeOptions] are
    declared outside service.go.  A configuration has an executable
    reference, a description and possibly an inline script body;
    normalizing replaces the executable reference of a configuration
    with a script body by the script path and hands the body back;
    validating rejects a missing name or executable reference; the
    serializer accepts normalized configurations only and writes a
    section-keyed key/value text. *)
Record conf : Type := {
  Desc : string;
  ExecStart : string;
  ExtraScript : option string
}.

Definition option_string_eqb (a b : option string) : bool :=
  match a, b with
  | Some x, Some y => String.eqb x y
  | None, None => true
  | _, _ => false
  end.

(** Modelled from the spec: the structural equality of configurations
    ([reflect.DeepEqual] at [common.Conf]), field by field. *)
Definition conf_eqb (a b : conf) : bool :=
  String.eqb (Desc a) (Desc b) &&
  String.eqb (ExecStart a) (ExecStart b) &&
  option_string_eqb (ExtraScript a) (ExtraScript b).

(** Modelled from the spec: [normalize], declared outside service.go.
    A configuration with an inline script body gets the script path as
    its executable reference and the body is returned; any other
    configuration passes through and no bytes are returned. *)
Definition normalize (c : conf) (scriptPath : string)
  : conf * option bytes :=
  match ExtraScript c with
  | Some body =>
      ({| Desc := Desc c; ExecStart := scriptPath; ExtraScript := None |},
       Some (list_byte_of_string body))
  | None => (c, None)
  end.

(** Modelled from the spec: [validate], declared outside service.go.
    It rejects a missing name and a missing executable reference. *)
Definition validate (name : string) (c : conf) : option error :=
  if String.eqb name "" then Some (New "missing service name")
  else if String.eqb (ExecStart c) "" then Some (New "missing ExecStart")
  else None.

(** section, name, value *)
Definition option_ : Type := string * string * string.

Definition nl : string := String (ascii_of_nat 10) "".

(** Modelled from the spec: [serialize], declared outside service.go.
    It accepts a normalized configuration and writes the sections
    [Unit] and [Service] with one key each. *)
Definition serialize (unitName : string) (c : conf) : error + bytes :=
  match ExtraScript c with
  | Some _ => inl (New "configuration not normalized")
  | None =>
      inr (list_byte_of_string
             ("[Unit]" ++ nl ++ "Description=" ++ Desc c ++ nl ++
              "[Service]" ++ nl ++ "ExecStart=" ++ ExecStart c ++ nl))
  end.

Fixpoint lookup (section name : string) (opts : list option_)
  : option string :=
  match opts with
  | [] => None
  | (sec, key, value) :: rest =>
      if String.eqb sec section && String.eqb key name then Some value
      else lookup section name rest
  end.

(** Modelled from the spec: [deserializeOptions], declared outside
    service.go.  It reads the configuration back from the options; the
    executable reference is required. *)
Definition deserializeOptions (opts : list option_) : error + conf :=
  match lookup "Service" "ExecStart" opts with
  | None => inl (New "missing ExecStart")
  | Some cmd =>
      inr {| Desc := match lookup "Unit" "Description" opts with
                     | Some d => d
                     | None => ""
                     end;
             ExecStart := cmd;
             ExtraScript := None |}
  end.

Definition join2 (a b : string) : string :=
  if String.eqb a "" then b
  else if String.eqb b "" then a
  else (a ++ "/" ++ b)%string.

#[export] Instance package : Package :=
  Build_Package
    conf
    ExecStart
    {| Desc := ""; ExecStart := ""; ExtraScript := None |}
    conf_eqb
    option_
    normalize validate serialize deserializeOptions
    (fun elems => fold_right join2 "" elems).

Record world : Type := {
  conn_script : list (option error);
  units : list dbus.UnitStatus;
  list_err : option error;
  unit_options : list (string * list option_);
  disable_err : option error;
  completion : option string;
  files : list (string * bytes)
}.

Definition with_conn_script (w : world) (cs : list (option error)) : world :=
  {| conn_script := cs; units := units w; list_err := list_err w;
     unit_options := unit_options w; disable_err := disable_err w;
     completion := completion w; files := files w |}.

Definition with_units (w : world) (us : list dbus.UnitStatus)
  (os : list (string * list option_)) : world :=
  {| conn_script := conn_script w; units := us; list_err := list_err w;
     unit_options := os; disable_err := disable_err w;
     completion := completion w; files := files w |}.

Definition with_files (w : world) (fs : list (string * bytes)) : world :=
  {| conn_script := conn_script w; units := units w;
     list_err := list_err w; unit_options := unit_options w;
     disable_err := disable_err w; completion := completion w;
     files := fs |}.

Definition newConn (w : world) : (error + unit) * world :=
  match conn_script w with
  | [] => (inr tt, w)
  | Some e :: rest => (inl e, with_conn_script w rest)
  | None :: rest => (inr tt, with_conn_script w rest)
  end.

Definition ListUnits (_ : unit) (w : world)
  : (error + list dbus.UnitStatus) * world :=
  match list_err w with
  | Some e => (inl e, w)
  | None => (inr (units w), w)
  end.

Fixpoint options_of (unitName : string)
  (table : list (string * list option_)) : option (list option_) :=
  match table with
  | [] => None
  | (n, opts) :: rest =>
      if String.eqb n unitName then Some opts else options_of unitName rest
  end.

(** Modelled from the spec: [getUnitOptions], declared outside
    service.go.  It serves the options the manager holds for the unit,
    and fails for a unit the manager does not know. *)
Definition getUnitOptions (_ : unit) (unitName section : string)
  (w : world) : (error + list option_) * world :=
  match options_of unitName (unit_options w) with
  | None => (inl (New "no such unit"), w)
  | Some opts => (inr opts, w)
  end.

(** A job that completes with "done" changes the active state. *)
Definition set_active (unitName state : string) (us : list dbus.UnitStatus)
  : list dbus.UnitStatus :=
  map (fun u =>
         if String.eqb (dbus.Name u) unitName
         then {| dbus.Name := dbus.Name u;
                 dbus.LoadState := dbus.LoadState u;
                 dbus.ActiveState := state |}
         else u) us.

Definition job (state : string) (_ : unit) (unitName mode : string)
  (_ : unit) (w : world) : option error * world :=
  match completion w with
  | Some "done" =>
      (None, with_units w (set_active unitName state (units w))
                        (unit_options w))
  | _ => (None, w)
  end.

Definition DisableUnitFiles (_ : unit) (names : list string) (_ : bool)
  (w : world) : option error * world :=
  match disable_err w with
  | Some e => (Some e, w)
  | None =>
      let gone (n : string) := existsb (String.eqb n) names in
      (None,
       with_units w
         (filter (fun u => negb (gone (dbus.Name u))) (units w))
         (filter (fun p => negb (gone (fst p))) (unit_options w)))
  end.

Definition removeAll (name : string) (w : world) : option error * world :=
  (None,
   with_files w (filter (fun f => negb (String.prefix name (fst f)))
                        (files w))).

Definition createFile (filename : string) (data : bytes) (_ : N)
  (w : world) : option error * world :=
  (None, with_files w ((filename, data) :: files w)).

#[export] Instance host : Host :=
  Build_Host package
    world unit unit
    (fun w => (inr "/var/lib/juju", w))
    newConn
    (fun w => (tt, w))
    (fun _ w => (completion w, w))
    (fun _ w => w)
    ListUnits
    (job "active")
    (job "inactive")
    (fun _ _ _ _ w => (None, w))
    DisableUnitFiles
    getUnitOptions
    removeAll
    (fun _ w => (None, w))
    createFile.

(** The service "foo" running "/usr/bin/foo". *)
Definition foo_conf : conf :=
  {| Desc := "Foo service"; ExecStart := "/usr/bin/foo";
     ExtraScript := None |}.

Definition foo : Service :=
  {| Name := "foo"; Conf := foo_conf; ConfName := "foo.service";
     UnitName := "foo.service"; Dirname := "/var/lib/juju/init/foo";
     Script := None |}.

Definition foo_options (cmd : string) : list option_ :=
  [("Unit", "Description", "Foo service"); ("Service", "ExecStart", cmd)].

Definition unit_status (name load active : string) : dbus.UnitStatus :=
  {| dbus.Name := name; dbus.LoadState := load;
     dbus.ActiveState := active |}.

(** Nothing installed. *)
Definition empty : world :=
  {| conn_script := []; units := []; list_err := None;
     unit_options := []; disable_err := None; completion := Some "done";
     files := [] |}.

(** foo is installed with the desired configuration; [active] is its
    active state and [signal] what a job sends on completion. *)
Definition installed (active : string) (signal : option string) : world :=
  {| conn_script := [];
     units := [unit_status "dbus.socket" "loaded" "active";
               unit_status "foo.service" "loaded" active];
     list_err := None;
     unit_options := [("foo.service", foo_options "/usr/bin/foo")];
     disable_err := None; completion := signal; files := [] |}.

(** foo is installed, running an older command line. *)
Definition outdated : world :=
  with_units (installed "active" (Some "done"))
    [unit_status "foo.service" "loaded" "active"]
    [("foo.service", foo_options "/usr/bin/foo --old")].

(** The unit file of foo is known to the manager and its options can
    be read, but the unit is not among the loaded units it lists. *)
Definition unlisted : world :=
  with_units (installed "inactive" (Some "done"))
    [unit_status "dbus.socket" "loaded" "active"]
    [("foo.service", foo_options "/usr/bin/foo")].

Definition down : error := New "dial unix /run/systemd/private: refused".

(** The next [n] connections open, the one after fails. *)
Definition failing_after (n : nat) (w : world) : world :=
  with_conn_script w (repeat None n ++ [Some down]).

Definition with_list_err (w : world) : world :=
  {| conn_script := conn_script w; units := units w;
     list_err := Some (New "ListUnits: timeout");
     unit_options := unit_options w; disable_err := disable_err w;
     completion := completion w; files := files w |}.

Definition with_disable_err (w : world) : world :=
  {| conn_script := conn_script w; units := units w;
     list_err := list_err w; unit_options := unit_options w;
     disable_err := Some (New "DisableUnitFiles: access denied");
     completion := completion w; files := files w |}.

(** A configuration without executable reference. *)
Definition bad_conf : conf :=
  {| Desc := "Foo service"; ExecStart := ""; ExtraScript := None |}.

(** foo is installed as desired and stopped; a job completes with
    [signal]. *)
Definition stopped (signal : string) : world :=
  installed "inactive" (Some signal).

(** foo is installed as desired and running; a job completes with
    [signal]. *)
Definition started (signal : string) : world :=
  installed "active" (Some signal).

(** foo is installed as desired and running. *)
Definition steady : world := installed "active" None.

(** A service whose name holds a formatting directive. *)
Definition percent : Service :=
  {| Name := "50%%"; Conf := foo_conf; ConfName := "50%%.service";
     UnitName := "50%%.service"; Dirname := "/var/lib/juju/init/50%%";
     Script := None |}.

(** The manager cannot be reached. *)
Definition dead : world := failing_after 0 empty.

(** The manager is reached but does not list its units. *)
Definition mute : world := with_list_err steady.

(** The options served for foo lack the executable reference. *)
Definition odd : world :=
  with_units empty []
    [("foo.service", [("Unit", "Description", "Foo service")])].

(** The service "bar", whose command line is an inline script: its
    configuration after normalization, and the script. *)
Definition bar : Service :=
  {| Name := "bar";
     Conf := {| Desc := "Bar service";
                ExecStart := "/var/lib/juju/init/bar/exec-start.sh";
                ExtraScript := None |};
     ConfName := "bar.service"; UnitName := "bar.service";
     Dirname := "/var/lib/juju/init/bar";
     Script := Some (list_byte_of_string "exec bar") |}.

(** A controller that holds a configuration that is not normalized,
    which the serializer refuses. *)
Definition raw : Service :=
  {| Name := "foo";
     Conf := {| Desc := "Foo service"; ExecStart := "/usr/bin/foo";
                ExtraScript := Some "exec foo" |};
     ConfName := "foo.service"; UnitName := "foo.service";
     Dirname := "/var/lib/juju/init/foo"; Script := None |}.

(** foo is listed, and the options served for it lack the executable
    reference. *)
Definition unreadable : world :=
  with_units steady (units steady)
    [("foo.service", [("Unit", "Description", "Foo service")])].

(** The scripted host on a machine where the data directory is not
    found. *)
Definition homeless : Host :=
  Build_Host package
    world unit unit
    (fun w => (inl (New "unknown series"), w))
    newConn
    (fun w => (tt, w))
    (fun _ w => (completion w, w))
    (fun _ w => w)
    ListUnits
    (job "active")
    (job "inactive")
    (fun _ _ _ _ w => (None, w))
    DisableUnitFiles
    getUnitOptions
    removeAll
    (fun _ w => (None, w))
    createFile.

End Scripted.

(** * The charm loader (store/lpload/main.go) *)

Module lpload.

(** The errors [load] can meet: the one it makes with [fmt.Errorf],
    whose format has no directive, the value of type
    [store.PublishBranchErrors] (the branches that failed, with their
    errors), and any other error of the store. *)
Inductive error : Type :=
| Errorf (message : string)
| PublishBranchErrors (branches : list (string * string))
| Other (message : string).

(** Package [store], which is not in main.go: [store.Open], the method
    [Close] of the store and [store.PublishCharmsDistro], applied by
    [load] to [lpad.Production]. *)
Class Host : Type := {
  World : Type;
  Store : Type;
  Open : string -> World -> (error + Store) * World;
  Close : Store -> World -> World;
  PublishCharmsDistro : Store -> World -> option error * World
}.

Inductive Event : Type :=
| EvOpen (addr : string) (err : option error)
| EvPublish (err : option error)
| EvClose.

(** [os.Args[1][0] == '-'] *)
Definition first_is_dash (arg : string) : bool :=
  match String.get 0 arg with
  | Some c => Ascii.eqb c "-"
  | None => false
  end.

(** [len(os.Args) != 2 || len(os.Args[1]) == 0 || os.Args[1][0] == '-'] *)
Definition wrong_usage (args : list string) : bool :=
  negb (Nat.eqb (List.length args) 2) ||
  Nat.eqb (String.length (nth 1 args "")) 0 ||
  first_is_dash (nth 1 args "").

(** [_, ok := err.(store.PublishBranchErrors)] *)
Definition is_PublishBranchErrors (err : option error) : bool :=
  match err with
  | Some (PublishBranchErrors _) => true
  | _ => false
  end.

Section Load.

Context {H : Host}.

(** [load], with [os.Args] as argument. *)
Definition load (args : list string) (w : World)
  : option error * World * list Event :=
  if wrong_usage args
  then (Some (Errorf "usage: lpload <mongo addr>"), w, [])
  else
    match Open (nth 1 args "") w with
    | (inl err, w1) => (Some err, w1, [EvOpen (nth 1 args "") (Some err)])
    | (inr s, w1) =>
        (* defer s.Close() *)
        let (err, w2) := PublishCharmsDistro s w1 in
        let r :=
          if negb (is_PublishBranchErrors err) then err
          else
            (* Ignore branch errors since they're commonplace here. *)
            None in
        (r, Close s w2, [EvOpen (nth 1 args "") None; EvPublish err; EvClose])
    end.

End Load.

(** A store that opens unless the address is "down" and whose
    publication ends as scripted. *)
#[export] Instance scripted : Host :=
  Build_Host
    (option error) unit
    (fun addr w =>
       if String.eqb addr "down" then (inl (Other "no reachable servers"), w)
       else (inr tt, w))
    (fun _ w => w)
    (fun _ w => (w, w)).

End lpload.

(** * Properties *)

(** ** Strings *)

Section Strings.

Local Open Scope string_scope.

Lemma length_append (a b : string) :
  String.length (a ++ b) = String.length a + String.length b.
Proof. induction a as [|c a IH]; simpl; [reflexivity | now rewrite IH]. Qed.

Lemma append_empty_r (a : string) : a ++ "" = a.
Proof. induction a as [|c a IH]; simpl; [reflexivity | now rewrite IH]. Qed.

Lemma substring_0_all (s : string) : substring 0 (String.length s) s = s.
Proof. induction s as [|c s IH]; simpl; [reflexivity | now rewrite IH]. Qed.

Lemma substring_append_right (p s : string) :
  substring (String.length p) (String.length s) (p ++ s) = s.
Proof.
  induction p as [|c p IH]; simpl.
  - apply substring_0_all.
  - exact IH.
Qed.

Lemma substring_append_left (p s : string) :
  substring 0 (String.length p) (p ++ s) = p.
Proof.
  induction p as [|c p IH]; simpl.
  - now destruct s.
  - now rewrite IH.
Qed.

Lemma substring_split (s : string) : forall n,
  n <= String.length s ->
  substring 0 n s ++ substring n (String.length s - n) s = s.
Proof.
  induction s as [|c s IH]; intros [|n] Hn; simpl in *.
  - reflexivity.
  - lia.
  - now rewrite substring_0_all.
  - rewrite IH by lia. reflexivity.
Qed.

Lemma append_cancel_r (p q s : string) : p ++ s = q ++ s -> p = q.
Proof.
  intros E.
  assert (L : String.length p = String.length q).
  { apply (f_equal String.length) in E. rewrite !length_append in E. lia. }
  rewrite <- (substring_append_left p s), E, L.
  apply substring_append_left.
Qed.

Lemma HasSuffix_append (p suffix : string) :
  strings.HasSuffix (p ++ suffix) suffix = true.
Proof.
  unfold strings.HasSuffix. rewrite length_append.
  replace (String.length p + String.length suffix - String.length suffix)
    with (String.length p) by lia.
  rewrite substring_append_right, String.eqb_refl.
  rewrite andb_true_r. apply Nat.leb_le. lia.
Qed.

Lemma HasSuffix_true (s suffix : string) :
  strings.HasSuffix s suffix = true ->
  s = strings.TrimSuffix s suffix ++ suffix.
Proof.
  intros E. unfold strings.TrimSuffix. rewrite E.
  unfold strings.HasSuffix in E. apply andb_true_iff in E as [L E].
  apply Nat.leb_le in L. apply String.eqb_eq in E.
  assert (S := @substring_split s (String.length s - String.length suffix)).
  replace (String.length s - (String.length s - String.length suffix))
    with (String.length suffix) in S by lia.
  rewrite E in S. symmetry. apply S. lia.
Qed.

Lemma HasSuffix_iff (s suffix : string) :
  strings.HasSuffix s suffix = true <-> exists p, s = p ++ suffix.
Proof.
  split.
  - intros E. eexists. exact (HasSuffix_true _ _ E).
  - intros [p ->]. apply HasSuffix_append.
Qed.

Lemma TrimSuffix_append (p suffix : string) :
  strings.TrimSuffix (p ++ suffix) suffix = p.
Proof.
  apply append_cancel_r with (s := suffix).
  symmetry. apply HasSuffix_true, HasSuffix_append.
Qed.

Lemma Sprintf_plain (s : string) :
  fmt.plain s = true -> fmt.Sprintf s [] = Some s.
Proof.
  induction s as [|c s IH]; simpl; intros E; [reflexivity|].
  apply andb_true_iff in E as [Ec Es].
  apply negb_true_iff in Ec. rewrite Ec, (IH Es). reflexivity.
Qed.

Lemma plain_append (a b : string) :
  fmt.plain (a ++ b) = fmt.plain a && fmt.plain b.
Proof.
  induction a as [|c a IH]; simpl; [reflexivity|].
  now rewrite IH, andb_assoc.
Qed.

Lemma Sprintf_plain_append (p format : string) (args : list string) :
  fmt.plain p = true ->
  fmt.Sprintf (p ++ format) args
  = option_map (append p) (fmt.Sprintf format args).
Proof.
  induction p as [|c p IH]; simpl; intros E.
  - now destruct (fmt.Sprintf format args).
  - apply andb_true_iff in E as [Ec Ep].
    apply negb_true_iff in Ec. rewrite Ec, (IH Ep).
    now destruct (fmt.Sprintf format args).
Qed.

End Strings.

(** ** Runs of the monad *)

Section Runs.

Context {P : Package} {H : Host}.

Lemma emits_ret {A : Type} (Q : Event -> bool) (a : A) : emits Q (ret a).
Proof. intros w. constructor. Qed.

Lemma emits_bind {A B : Type} (Q : Event -> bool) (m : M A) (k : A -> M B) :
  emits Q m -> (forall a, emits Q (k a)) -> emits Q (bind m k).
Proof.
  intros Hm Hk w. specialize (Hm w). unfold bind, log in *.
  destruct (m w) as [[[a|] w1] t1]; simpl in *; [|assumption].
  specialize (Hk a w1). destruct (k a w1) as [[r w2] t2]; simpl in *.
  apply Forall_app. now split.
Qed.

Lemma emits_call {A : Type} (Q : Event -> bool) (op : World -> A * World)
  (ev : A -> Event) :
  (forall a, Q (ev a) = true) -> emits Q (call op ev).
Proof.
  intros Hev w. unfold call, log. destruct (op w) as [a w']; simpl.
  constructor; [apply Hev | constructor].
Qed.

Lemma emits_receive (Q : Event -> bool) (ch : Chan) :
  (forall status, Q (EvRecv status) = true) -> emits Q (receive ch).
Proof.
  intros Hev w. unfold receive, log.
  destruct (recv ch w) as [[status|] w']; simpl;
    (constructor; [apply Hev | constructor]).
Qed.

Lemma emits_run {A : Type} {Q : Event -> bool} {m : M A} {w r w' t} :
  emits Q m -> m w = (r, w', t) -> Forall (fun e => Q e = true) t.
Proof. intros Hm E. specialize (Hm w). now rewrite E in Hm. Qed.

End Runs.

(** One step of a proof that a computation logs calls of one kind only:
    a rule of the monad, a case split, or the unfolding of the function
    at the head of the computation. *)
Ltac head_of m :=
  match m with
  | ?f _ => head_of f
  | _ => m
  end.

Ltac emits_step :=
  first
    [ apply emits_ret
    | apply emits_bind; [|intros ?]
    | apply emits_call; intros; reflexivity
    | apply emits_receive; intros; reflexivity
    | match goal with
      | |- emits _ (match ?x with _ => _ end) => destruct x
      | |- emits _ ?m => let h := head_of m in progress unfold h
      end ].

Ltac emits_tac := intros; repeat emits_step.

(** ** The observations *)

Section Observations.

Context {P : Package} {H : Host}.

Lemma ListServices_run w :
  ListServices w =
  match newConn w with
  | (inl e, w1) => (Returns (inl (Traced e)), w1, [EvNewConn (Some e)])
  | (inr c, w1) =>
      match ListUnits c w1 with
      | (inl e, w2) =>
          (Returns (inl (Traced e)), Close c w2,
           [EvNewConn None; EvListUnits (Some e); EvClose])
      | (inr units, w2) =>
          (Returns (inr (ListServices_loop units [])), Close c w2,
           [EvNewConn None; EvListUnits None; EvClose])
      end
  end.
Proof.
  unfold ListServices, defer_Close, do_newConn, do_ListUnits, do_Close,
    bind, call, ret.
  destruct (newConn w) as [[e|c] w1]; simpl; [reflexivity|].
  destruct (ListUnits c w1) as [[e|units] w2]; reflexivity.
Qed.

Lemma Installed_run (s : Service) w :
  Installed s w =
  match newConn w with
  | (inl e, w1) => (Returns false, w1, [EvNewConn (Some e)])
  | (inr c, w1) =>
      match ListUnits c w1 with
      | (inl e, w2) =>
          (Returns false, Close c w2,
           [EvNewConn None; EvListUnits (Some e); EvClose])
      | (inr units, w2) =>
          (Returns (Installed_loop (ListServices_loop units []) (Name s)),
           Close c w2, [EvNewConn None; EvListUnits None; EvClose])
      end
  end.
Proof.
  unfold Installed, bind. rewrite ListServices_run.
  destruct (newConn w) as [[e|c] w1]; simpl; [reflexivity|].
  destruct (ListUnits c w1) as [[e|units] w2]; reflexivity.
Qed.

Lemma Running_run (s : Service) w :
  Running s w =
  match newConn w with
  | (inl e, w1) => (Returns false, w1, [EvNewConn (Some e)])
  | (inr c, w1) =>
      match ListUnits c w1 with
      | (inl e, w2) =>
          (Returns false, Close c w2,
           [EvNewConn None; EvListUnits (Some e); EvClose])
      | (inr units, w2) =>
          (Returns (Running_loop units (UnitName s)),
           Close c w2, [EvNewConn None; EvListUnits None; EvClose])
      end
  end.
Proof.
  unfold Running, defer_Close, do_newConn, do_ListUnits, do_Close,
    bind, call, ret.
  destruct (newConn w) as [[e|c] w1]; simpl; [reflexivity|].
  destruct (ListUnits c w1) as [[e|units] w2]; reflexivity.
Qed.

Lemma check_run (s : Service) w :
  check s w =
  match newConn w with
  | (inl e, w1) =>
      (Returns (false, Some (Traced (Traced e))), w1, [EvNewConn (Some e)])
  | (inr c, w1) =>
      match getUnitOptions c (UnitName s) "Service" w1 with
      | (inl e, w2) =>
          (Returns (false, Some (Traced (Traced e))), Close c w2,
           [EvNewConn None;
            EvGetUnitOptions (UnitName s) "Service" (Some e); EvClose])
      | (inr opts, w2) =>
          (Returns
             match deserializeOptions opts with
             | inl e => (false, Some (Traced (Traced e)))
             | inr conf => (DeepEqual (Conf s) conf, None)
             end,
           Close c w2,
           [EvNewConn None; EvGetUnitOptions (UnitName s) "Service" None;
            EvClose])
      end
  end.
Proof.
  unfold check, readConf, defer_Close, do_newConn, do_getUnitOptions,
    do_Close, bind, call, ret.
  destruct (newConn w) as [[e|c] w1]; simpl; [reflexivity|].
  destruct (getUnitOptions c (UnitName s) "Service" w1) as [[e|opts] w2];
    simpl; [reflexivity|].
  destruct (deserializeOptions opts); reflexivity.
Qed.

Lemma Exists_check (s : Service) w :
  Exists s w =
  match check s w with
  | (Returns (same, None), w', t) => (Returns same, w', t)
  | (Returns (_, Some _), w', t) => (Returns false, w', t)
  | (Blocks, w', t) => (Blocks, w', t)
  end.
Proof.
  unfold Exists, bind, ret.
  destruct (check s w) as [[[[same [e|]]|] w'] t]; simpl;
    now rewrite ?app_nil_r.
Qed.

Lemma Installed_queries (s : Service) : emits is_query (Installed s).
Proof. emits_tac. Qed.

Lemma check_queries (s : Service) : emits is_query (check s).
Proof. emits_tac. Qed.

Lemma Exists_queries (s : Service) : emits is_query (Exists s).
Proof. emits_tac. Qed.

Lemma Running_queries (s : Service) : emits is_query (Running s).
Proof. emits_tac. Qed.

End Observations.

(** ** The lister keeps the service units *)

Section Lister.

Context {P : Package} {H : Host}.

Lemma ListServices_loop_acc units : forall services,
  ListServices_loop units services = services ++ ListServices_loop units [].
Proof.
  induction units as [|u units IH]; intros services; simpl.
  - now rewrite app_nil_r.
  - destruct (strings.HasSuffix (dbus.Name u) ".service"); simpl.
    + rewrite IH, (IH [_]), <- app_assoc. reflexivity.
    + apply IH.
Qed.

Lemma ListServices_loop_Listed units :
  Listed units (ListServices_loop units []).
Proof.
  induction units as [|u units IH]; simpl.
  - constructor.
  - destruct (strings.HasSuffix (dbus.Name u) ".service") eqn:E; simpl.
    + rewrite ListServices_loop_acc. simpl.
      apply Listed_keep; [|exact IH].
      exact (HasSuffix_true _ _ E).
    + apply Listed_skip; [|exact IH].
      intros n En. rewrite En, HasSuffix_append in E. discriminate.
Qed.

Lemma Listed_functional {units} : forall {names names'},
  Listed units names -> Listed units names' -> names = names'.
Proof.
  induction units as [|u units IH]; intros names names' L L';
    inversion L; subst; inversion L'; subst.
  - reflexivity.
  - f_equal.
    + apply append_cancel_r with (s := ".service"%string). congruence.
    + now apply IH.
  - exfalso. eapply H3. eassumption.
  - exfalso. eapply H2. eassumption.
  - now apply IH.
Qed.

Lemma Listed_In {units names} :
  Listed units names ->
  forall n, In n names <->
            exists u, In u units /\ dbus.Name u = (n ++ ".service")%string.
Proof.
  induction 1 as [|u n0 units names E L IH|u units names N L IH]; intros n.
  - simpl. split; [tauto | now intros [u [[] _]]].
  - simpl. rewrite IH. split.
    + intros [<-|[u' [I E']]]; [exists u | exists u']; auto.
    + intros [u' [[<-|I] E']].
      * left. apply append_cancel_r with (s := ".service"%string). congruence.
      * right. now exists u'.
  - rewrite IH. simpl. split.
    + intros [u' [I E']]. exists u'. auto.
    + intros [u' [[<-|I] E']]; [now apply N in E' | now exists u'].
Qed.

(** C9.  When the connection opens and the manager lists [units],
    [ListServices] returns exactly the names [n] of the units called
    [n ++ ".service"], in the order of the units and with the suffix
    taken off; a unit whose name does not end in ".service" contributes
    nothing. *)
Theorem ListServices_keeps_service_units :
  forall w c w1 units w2,
    newConn w = (inr c, w1) ->
    ListUnits c w1 = (inr units, w2) ->
    exists names,
      result (ListServices w) = Returns (inr names) /\
      Listed units names /\
      (forall names', Listed units names' -> names' = names) /\
      (forall n, In n names <->
                 exists u, In u units /\
                           dbus.Name u = (n ++ ".service")%string).
Proof.
  intros w c w1 units w2 Ec El.
  exists (ListServices_loop units []).
  rewrite ListServices_run, Ec, El.
  assert (L := ListServices_loop_Listed units).
  repeat split.
  - exact L.
  - intros names' L'. exact (Listed_functional L' L).
  - apply (Listed_In L).
  - apply (Listed_In L).
Qed.

(** ** A failing backend reads as an absent service *)

(** C10.  [Installed], [Exists] and [Running] return [false], never an
    error, when the connection cannot be opened, when the units cannot
    be listed ([Installed], [Running]) and when the options of the unit
    cannot be read or deserialized ([Exists]). *)
Theorem observations_hide_backend_failures :
  forall (s : Service) w,
    (forall e w1,
        newConn w = (inl e, w1) ->
        result (Installed s w) = Returns false /\
        result (Exists s w) = Returns false /\
        result (Running s w) = Returns false) /\
    (forall c w1 e w2,
        newConn w = (inr c, w1) ->
        ListUnits c w1 = (inl e, w2) ->
        result (Installed s w) = Returns false /\
        result (Running s w) = Returns false) /\
    (forall c w1 e w2,
        newConn w = (inr c, w1) ->
        getUnitOptions c (UnitName s) "Service" w1 = (inl e, w2) ->
        result (Exists s w) = Returns false) /\
    (forall c w1 opts e w2,
        newConn w = (inr c, w1) ->
        getUnitOptions c (UnitName s) "Service" w1 = (inr opts, w2) ->
        deserializeOptions opts = inl e ->
        result (Exists s w) = Returns false).
Proof.
  intros s w. rewrite Exists_check, check_run, Installed_run, Running_run.
  repeat split; intros.
  all: repeat match goal with
         | E : _ = _ |- _ => rewrite E; clear E
         end; reflexivity.
Qed.

End Lister.

(** ** Starting, stopping and removing: the cases without a request *)

Section Noops.

Context {P : Package} {H : Host}.

Lemma Installed_total (s : Service) w :
  exists b w1 t1,
    Installed s w = (Returns b, w1, t1) /\
    Forall (fun e => is_query e = true) t1 /\
    count is_newConn t1 = 1.
Proof.
  rewrite Installed_run.
  destruct (newConn w) as [[e|c] w1].
  - do 3 eexists. split; [reflexivity|]. split; [|reflexivity].
    repeat constructor.
  - destruct (ListUnits c w1) as [[e|units] w2];
      (do 3 eexists; split; [reflexivity|]; split; [|reflexivity];
       repeat constructor).
Qed.

Lemma Running_total (s : Service) w :
  exists b w1 t1,
    Running s w = (Returns b, w1, t1) /\
    Forall (fun e => is_query e = true) t1.
Proof.
  destruct (Running s w) as [[[b|] w1] t1] eqn:E.
  - exists b, w1, t1. split; [reflexivity|].
    exact (emits_run (Running_queries s) E).
  - rewrite Running_run in E.
    destruct (newConn w) as [[e|c] w2]; [discriminate|].
    destruct (ListUnits c w2) as [[e|units] w3]; discriminate.
Qed.

Lemma Installed_count (s : Service) {w b w1 t1} :
  Installed s w = (Returns b, w1, t1) -> count is_newConn t1 = 1.
Proof.
  intros E. destruct (Installed_total s w) as (b' & w' & t' & E' & _ & C).
  congruence.
Qed.

(** A unit listed under the unit name of the service makes the service
    one of the listed services. *)
Lemma Running_loop_Installed_loop (n : string) units :
  Running_loop units (n ++ ".service") = true ->
  Installed_loop (ListServices_loop units []) n = true.
Proof.
  induction units as [|u units IH]; simpl; [discriminate|].
  destruct (String.eqb_spec (dbus.Name u) (n ++ ".service")) as [E|N].
  - intros _. rewrite E, HasSuffix_append; simpl.
    rewrite ListServices_loop_acc, TrimSuffix_append; simpl.
    now rewrite String.eqb_refl.
  - intros R. specialize (IH R).
    destruct (strings.HasSuffix (dbus.Name u) ".service"); simpl; [|exact IH].
    rewrite ListServices_loop_acc; simpl. rewrite IH.
    now destruct (String.eqb _ n).
Qed.

(** [Start] of a service that is not installed, for every name: it
    returns the not-found error made from "service " and the name, and
    its log is the log of the look-up [Installed]: one connection,
    queries only, hence no channel, no start request and no wait.  The
    name is passed as the format of [NotFoundf]: the message reads
    "service NAME not found" for a name without formatting directive. *)
Lemma Start_not_installed :
  forall (s : Service) w w1 t1,
    Installed s w = (Returns false, w1, t1) ->
    Start s w
    = (Returns (Some (NotFoundf ("service " ++ Name s) [])), w1, t1) /\
    IsNotFound (NotFoundf ("service " ++ Name s) []) = true /\
    (fmt.plain (Name s) = true ->
     Error (NotFoundf ("service " ++ Name s) [])
     = Some ("service " ++ Name s ++ " not found")%string) /\
    Forall (fun e => is_query e = true) t1 /\
    count is_newConn t1 = 1 /\
    count is_start t1 = 0.
Proof.
  intros s w w1 t1 E.
  assert (Q := emits_run (Installed_queries s) E).
  repeat split.
  - unfold Start, bind. rewrite E. simpl. now rewrite app_nil_r.
  - intros Pl. cbn [Error]. rewrite Sprintf_plain.
    + simpl. reflexivity.
    + rewrite !plain_append, Pl. reflexivity.
  - exact Q.
  - exact (Installed_count s E).
  - unfold count. clear E. induction Q as [|e t Qe Qt IH]; [reflexivity|].
    simpl. destruct e; try discriminate; exact IH.
Qed.

(** C7.  The cases in which nothing is asked of the backend.  [Start],
    once its look-ups report the service installed and running, returns
    [nil]; [Stop], when [Running] reports [false], returns [nil];
    [Remove], when [Installed] reports [false], returns [nil].  In each
    case the log is that of the look-ups and holds queries only.  The
    last part is the first one for a manager that answers both look-ups
    of [Start] with the same units: a unit listed as loaded and active
    under the unit name of the service is enough. *)
Theorem noop_cases_issue_no_request :
  forall (s : Service) w,
    (forall w1 t1 w2 t2,
        Installed s w = (Returns true, w1, t1) ->
        Running s w1 = (Returns true, w2, t2) ->
        Start s w = (Returns None, w2, t1 ++ t2) /\
        Forall (fun e => is_query e = true) (t1 ++ t2)) /\
    (forall w1 t1,
        Running s w = (Returns false, w1, t1) ->
        Stop s w = (Returns None, w1, t1) /\
        Forall (fun e => is_query e = true) t1) /\
    (forall w1 t1,
        Installed s w = (Returns false, w1, t1) ->
        Remove s w = (Returns None, w1, t1) /\
        Forall (fun e => is_query e = true) t1) /\
    (forall c w1 units w2 c' w3 w4,
        UnitName s = (Name s ++ ".service")%string ->
        newConn w = (inr c, w1) ->
        ListUnits c w1 = (inr units, w2) ->
        newConn (Close c w2) = (inr c', w3) ->
        ListUnits c' w3 = (inr units, w4) ->
        Running_loop units (UnitName s) = true ->
        Start s w
        = (Returns None, Close c' w4,
           [EvNewConn None; EvListUnits None; EvClose;
            EvNewConn None; EvListUnits None; EvClose])).
Proof.
  intros s w. split; [|split; [|split]].
  - intros w1 t1 w2 t2 Ei Er. split.
    + unfold Start, bind. rewrite Ei. simpl. rewrite Er. simpl.
      now rewrite app_nil_r.
    + apply Forall_app. split.
      * exact (emits_run (Installed_queries s) Ei).
      * exact (emits_run (Running_queries s) Er).
  - intros w1 t1 Er. split.
    + unfold Stop, bind. rewrite Er. simpl. now rewrite app_nil_r.
    + exact (emits_run (Running_queries s) Er).
  - intros w1 t1 Ei. split.
    + unfold Remove, bind. rewrite Ei. simpl. now rewrite app_nil_r.
    + exact (emits_run (Installed_queries s) Ei).
  - intros c w1 units w2 c' w3 w4 U Ec El Ec' El' R.
    unfold Start, bind.
    rewrite Installed_run, Ec, El.
    rewrite U in R. rewrite (Running_loop_Installed_loop _ _ R). simpl.
    rewrite Running_run, Ec', El', U, R. reflexivity.
Qed.

End Noops.

(** ** Requests and their completion *)

Section Requests.

Context {P : Package} {H : Host}.

Lemma count_app (Q : Event -> bool) (a b : list Event) :
  count Q (a ++ b) = count Q a + count Q b.
Proof. unfold count. now rewrite filter_app, length_app. Qed.

Lemma count_none {Q R : Event -> bool} {t : list Event} :
  (forall e, Q e = true -> R e = false) ->
  Forall (fun e => Q e = true) t ->
  count R t = 0.
Proof.
  intros QR F. unfold count.
  induction F as [|e t Qe _ IH]; [reflexivity|].
  simpl. now rewrite (QR e Qe).
Qed.

Lemma query_no_recv (e : Event) : is_query e = true -> is_recv e = false.
Proof. now destruct e. Qed.

Lemma Start_request (s : Service) {w w1 t1 w2 t2} :
  Installed s w = (Returns true, w1, t1) ->
  Running s w1 = (Returns false, w2, t2) ->
  Start s w =
  match newConn w2 with
  | (inl e, w3) =>
      (Returns (Some (Traced e)), w3, t1 ++ t2 ++ [EvNewConn (Some e)])
  | (inr c, w3) =>
      match newChan w3 with
      | (ch, w4) =>
          match StartUnit c (UnitName s) "fail" ch w4 with
          | (Some e, w5) =>
              (Returns (Some (Traced e)), Close c w5,
               t1 ++ t2 ++
               [EvNewConn None; EvNewChan;
                EvStartUnit (UnitName s) "fail" (Some e); EvClose])
          | (None, w5) =>
              match recv ch w5 with
              | (None, w6) =>
                  (Blocks, w6,
                   t1 ++ t2 ++
                   [EvNewConn None; EvNewChan;
                    EvStartUnit (UnitName s) "fail" None; EvRecv None])
              | (Some status, w6) =>
                  (Returns
                     (if String.eqb status "done" then None
                      else Some (Errorf "failed to start service %s"
                                        [Name s])),
                   Close c w6,
                   t1 ++ t2 ++
                   [EvNewConn None; EvNewChan;
                    EvStartUnit (UnitName s) "fail" None;
                    EvRecv (Some status); EvClose])
              end
          end
      end
  end.
Proof.
  intros Ei Er. unfold Start, bind at 1. rewrite Ei. simpl.
  unfold bind at 1. rewrite Er. simpl.
  unfold defer_Close, do_newConn, do_newChan, do_StartUnit, do_Close,
    receive, bind, call, ret.
  destruct (newConn w2) as [[e|c] w3]; simpl; [reflexivity|].
  destruct (newChan w3) as [ch w4]; simpl.
  destruct (StartUnit c (UnitName s) "fail" ch w4) as [[e|] w5]; simpl;
    [reflexivity|].
  destruct (recv ch w5) as [[status|] w6]; simpl; [|reflexivity].
  destruct (String.eqb status "done"); reflexivity.
Qed.

Lemma Stop_request (s : Service) {w w1 t1} :
  Running s w = (Returns true, w1, t1) ->
  Stop s w =
  match newConn w1 with
  | (inl e, w2) =>
      (Returns (Some (Traced e)), w2, t1 ++ [EvNewConn (Some e)])
  | (inr c, w2) =>
      match newChan w2 with
      | (ch, w3) =>
          match StopUnit c (UnitName s) "fail" ch w3 with
          | (Some e, w4) =>
              (Returns (Some (Traced e)), Close c w4,
               t1 ++
               [EvNewConn None; EvNewChan;
                EvStopUnit (UnitName s) "fail" (Some e); EvClose])
          | (None, w4) =>
              match recv ch w4 with
              | (None, w5) =>
                  (Blocks, w5,
                   t1 ++
                   [EvNewConn None; EvNewChan;
                    EvStopUnit (UnitName s) "fail" None; EvRecv None])
              | (Some status, w5) =>
                  (Returns
                     (if String.eqb status "done" then None
                      else Some (Errorf "failed to stop service %s"
                                        [Name s])),
                   Close c w5,
                   t1 ++
                   [EvNewConn None; EvNewChan;
                    EvStopUnit (UnitName s) "fail" None;
                    EvRecv (Some status); EvClose])
              end
          end
      end
  end.
Proof.
  intros Er. unfold Stop, bind at 1. rewrite Er. simpl.
  unfold defer_Close, do_newConn, do_newChan, do_StopUnit, do_Close,
    receive, bind, call, ret.
  destruct (newConn w1) as [[e|c] w2]; simpl; [reflexivity|].
  destruct (newChan w2) as [ch w3]; simpl.
  destruct (StopUnit c (UnitName s) "fail" ch w3) as [[e|] w4]; simpl;
    [reflexivity|].
  destruct (recv ch w4) as [[status|] w5]; simpl; [|reflexivity].
  destruct (String.eqb status "done"); reflexivity.
Qed.

Lemma done_settles (status : string) (failure : error) :
  (Returns (if String.eqb status "done" then None else Some failure)
   = Returns None <-> status = "done"%string) /\
  (status <> "done"%string ->
   Returns (if String.eqb status "done" then None else Some failure)
   = Returns (Some failure)).
Proof.
  destruct (String.eqb_spec status "done") as [E|N]; split.
  - tauto.
  - intros N. contradiction.
  - split; [discriminate | intros E; contradiction].
  - reflexivity.
Qed.

Lemma failure_message (verb n : string) :
  fmt.plain verb = true ->
  Error (Errorf (verb ++ "%s") [n]) = Some (verb ++ n)%string.
Proof.
  intros Pl. cbn [Error]. rewrite (Sprintf_plain_append _ _ _ Pl).
  simpl. now rewrite append_empty_r.
Qed.

End Requests.

(** The membership of a call in a log made of look-ups and of calls
    written out. *)
Ltac in_log I :=
  repeat (rewrite in_app_iff in I || simpl in I);
  repeat match type of I with
    | _ \/ _ => destruct I as [I|I]
    end;
  try contradiction;
  try match goal with
    | F : Forall (fun e => is_query e = true) ?t, I' : In _ ?t |- _ =>
        rewrite Forall_forall in F; specialize (F _ I');
        simpl in F; discriminate F
    end;
  try discriminate I.

Section Completion.

Context {P : Package} {H : Host}.

(** C6.  If the log of [Start] holds a start request, the request was
    for the unit of the service in mode "fail", and the call is settled
    by it: a failed request is returned traced; otherwise the call waits
    for one completion value, returns [nil] exactly for "done", the
    error "failed to start service NAME" for any other value, and does
    not return while none arrives.  The same holds for [Stop] with
    "failed to stop service NAME".  When the connection for the request
    cannot be opened the call returns that error traced. *)
Theorem request_settled_by_completion :
  forall (s : Service) w r w' t,
    (Start s w = (r, w', t) ->
     forall u m err,
       In (EvStartUnit u m err) t ->
       u = UnitName s /\ m = "fail"%string /\
       settled t r (Errorf "failed to start service %s" [Name s]) err) /\
    (Stop s w = (r, w', t) ->
     forall u m err,
       In (EvStopUnit u m err) t ->
       u = UnitName s /\ m = "fail"%string /\
       settled t r (Errorf "failed to stop service %s" [Name s]) err) /\
    Error (Errorf "failed to start service %s" [Name s])
    = Some ("failed to start service " ++ Name s)%string /\
    Error (Errorf "failed to stop service %s" [Name s])
    = Some ("failed to stop service " ++ Name s)%string /\
    (forall w1 t1 w2 t2 e w3,
        Installed s w = (Returns true, w1, t1) ->
        Running s w1 = (Returns false, w2, t2) ->
        newConn w2 = (inl e, w3) ->
        result (Start s w) = Returns (Some (Traced e)) /\
        count is_start (log (Start s w)) = 0) /\
    (forall w1 t1 e w2,
        Running s w = (Returns true, w1, t1) ->
        newConn w1 = (inl e, w2) ->
        result (Stop s w) = Returns (Some (Traced e)) /\
        count is_stop (log (Stop s w)) = 0).
Proof.
  intros s w r w' t.
  split; [|split; [|split; [|split; [|split]]]].
  - intros E u m err I.
    destruct (Installed_total s w) as (b & w1 & t1 & Ei & Qi & _).
    destruct b.
    2:{ unfold Start, bind in E. rewrite Ei in E. simpl in E.
        rewrite app_nil_r in E. inversion E; subst. in_log I. }
    destruct (Running_total s w1) as (b & w2 & t2 & Er & Qr).
    destruct b.
    { unfold Start, bind in E. rewrite Ei in E. simpl in E.
      rewrite Er in E. simpl in E. rewrite app_nil_r in E.
      inversion E; subst. in_log I. }
    assert (C1 := count_none query_no_recv Qi).
    assert (C2 := count_none query_no_recv Qr).
    rewrite (Start_request _ Ei Er) in E.
    destruct (newConn w2) as [[e|c] w3].
    { inversion E; subst. in_log I. }
    destruct (newChan w3) as [ch w4].
    destruct (StartUnit c (UnitName s) "fail" ch w4) as [[e|] w5].
    { inversion E; subst. in_log I. inversion I; subst.
      repeat split. rewrite !count_app, C1, C2. reflexivity. }
    destruct (recv ch w5) as [[status|] w6];
      inversion E; subst; in_log I; inversion I; subst;
      (split; [reflexivity|]; split; [reflexivity|]).
    + exists (Some status). split.
      { rewrite !in_app_iff. simpl. tauto. }
      split; [rewrite !count_app, C1, C2; reflexivity|].
      apply done_settles.
    + exists None. split.
      { rewrite !in_app_iff. simpl. tauto. }
      split; [rewrite !count_app, C1, C2; reflexivity|].
      reflexivity.
  - intros E u m err I.
    destruct (Running_total s w) as (b & w1 & t1 & Er & Qr).
    destruct b.
    2:{ unfold Stop, bind in E. rewrite Er in E. simpl in E.
        rewrite app_nil_r in E. inversion E; subst. in_log I. }
    assert (C1 := count_none query_no_recv Qr).
    rewrite (Stop_request _ Er) in E.
    destruct (newConn w1) as [[e|c] w2].
    { inversion E; subst. in_log I. }
    destruct (newChan w2) as [ch w3].
    destruct (StopUnit c (UnitName s) "fail" ch w3) as [[e|] w4].
    { inversion E; subst. in_log I. inversion I; subst.
      repeat split. rewrite !count_app, C1. reflexivity. }
    destruct (recv ch w4) as [[status|] w5];
      inversion E; subst; in_log I; inversion I; subst;
      (split; [reflexivity|]; split; [reflexivity|]).
    + exists (Some status). split.
      { rewrite !in_app_iff. simpl. tauto. }
      split; [rewrite !count_app, C1; reflexivity|].
      apply done_settles.
    + exists None. split.
      { rewrite !in_app_iff. simpl. tauto. }
      split; [rewrite !count_app, C1; reflexivity|].
      reflexivity.
  - exact (failure_message "failed to start service " (Name s) eq_refl).
  - exact (failure_message "failed to stop service " (Name s) eq_refl).
  - intros w1 t1 w2 t2 e w3 Ei Er Ec.
    rewrite (Start_request _ Ei Er), Ec. split; [reflexivity|].
    unfold log; simpl. rewrite !count_app.
    rewrite (@count_none is_query is_start _ (fun e => ltac:(now destruct e))
               (emits_run (Installed_queries s) Ei)).
    rewrite (@count_none is_query is_start _ (fun e => ltac:(now destruct e))
               (emits_run (Running_queries s) Er)).
    reflexivity.
  - intros w1 t1 e w2 Er Ec.
    rewrite (Stop_request _ Er), Ec. split; [reflexivity|].
    unfold log; simpl. rewrite !count_app.
    rewrite (@count_none is_query is_stop _ (fun e => ltac:(now destruct e))
               (emits_run (Running_queries s) Er)).
    reflexivity.
Qed.

End Completion.

(** ** Removing *)

Section Removal.

Context {P : Package} {H : Host}.

Lemma Remove_request (s : Service) {w w1 t1} :
  Installed s w = (Returns true, w1, t1) ->
  Remove s w =
  match newConn w1 with
  | (inl e, w2) =>
      (Returns (Some (Traced e)), w2, t1 ++ [EvNewConn (Some e)])
  | (inr c, w2) =>
      match DisableUnitFiles c [UnitName s] false w2 with
      | (Some e, w3) =>
          (Returns (Some (Traced e)), Close c w3,
           t1 ++
           [EvNewConn None;
            EvDisableUnitFiles [UnitName s] false (Some e); EvClose])
      | (None, w3) =>
          match removeAll (Dirname s) w3 with
          | (d, w4) =>
              (Returns (Trace d), Close c w4,
               t1 ++
               [EvNewConn None; EvDisableUnitFiles [UnitName s] false None;
                EvRemoveAll (Dirname s) d; EvClose])
          end
      end
  end.
Proof.
  intros Ei. unfold Remove, bind at 1. rewrite Ei. simpl.
  unfold defer_Close, do_newConn, do_DisableUnitFiles, do_removeAll,
    do_Close, bind, call, ret.
  destruct (newConn w1) as [[e|c] w2]; simpl; [reflexivity|].
  destruct (DisableUnitFiles c [UnitName s] false w2) as [[e|] w3]; simpl;
    [reflexivity|].
  destruct (removeAll (Dirname s) w3) as [[e|] w4]; reflexivity.
Qed.

Lemma query_no_teardown (e : Event) :
  is_query e = true -> is_teardown e = false.
Proof. now destruct e. Qed.

Lemma query_no_delete (e : Event) : is_query e = true -> is_delete e = false.
Proof. now destruct e. Qed.

Lemma query_no_disable (e : Event) :
  is_query e = true -> is_disable e = false.
Proof. now destruct e. Qed.

Lemma query_no_setup (e : Event) : is_query e = true -> is_setup e = false.
Proof. now destruct e. Qed.

End Removal.

Section Removal_order.

Context {P : Package} {H : Host}.

(** C8.  [Remove] of an installed service.  A deletion of the
    directory is in the log only right after the successful disabling of
    the unit file, and it is the deletion of the directory of the
    service; nothing else in the log stops, disables or deletes.  When
    disabling fails, [Remove] returns that error traced and the log
    holds no deletion.  The log is the look-up followed by one of: a
    failed connection; a failed disabling; a disabling and a deletion. *)
Theorem Remove_disables_before_deleting :
  forall (s : Service) w w1 t1 r w' t,
    Installed s w = (Returns true, w1, t1) ->
    Remove s w = (r, w', t) ->
    (forall name d,
        In (EvRemoveAll name d) t ->
        name = Dirname s /\ r = Returns (Trace d) /\
        exists pre post,
          t = pre ++
              EvDisableUnitFiles [UnitName s] false None ::
              EvRemoveAll (Dirname s) d :: post /\
          count is_teardown pre = 0 /\ count is_teardown post = 0) /\
    (forall files runtime e,
        In (EvDisableUnitFiles files runtime (Some e)) t ->
        r = Returns (Some (Traced e)) /\ count is_delete t = 0) /\
    ((exists e,
         t = t1 ++ [EvNewConn (Some e)] /\ r = Returns (Some (Traced e))) \/
     (exists e,
         t = t1 ++ [EvNewConn None;
                    EvDisableUnitFiles [UnitName s] false (Some e); EvClose] /\
         r = Returns (Some (Traced e))) \/
     (exists d,
         t = t1 ++ [EvNewConn None;
                    EvDisableUnitFiles [UnitName s] false None;
                    EvRemoveAll (Dirname s) d; EvClose] /\
         r = Returns (Trace d))).
Proof.
  intros s w w1 t1 r w' t Ei E.
  assert (Qi := emits_run (Installed_queries s) Ei).
  assert (Ct := count_none query_no_teardown Qi).
  assert (Cd := count_none query_no_delete Qi).
  rewrite (Remove_request s Ei) in E.
  destruct (newConn w1) as [[e|c] w2].
  { inversion E; subst. split; [|split].
    - intros name d I. in_log I.
    - intros files runtime e' I. in_log I.
    - left. now exists e. }
  destruct (DisableUnitFiles c [UnitName s] false w2) as [[e|] w3].
  { inversion E; subst. split; [|split].
    - intros name d I. in_log I.
    - intros files runtime e' I. in_log I. inversion I; subst.
      split; [reflexivity|]. rewrite count_app, Cd. reflexivity.
    - right. left. now exists e. }
  destruct (removeAll (Dirname s) w3) as [d w4].
  inversion E; subst. split; [|split].
  - intros name d' I. in_log I. inversion I; subst.
    split; [reflexivity|]. split; [reflexivity|].
    exists (t1 ++ [EvNewConn None]), [EvClose].
    split; [now rewrite <- app_assoc|].
    split; [rewrite count_app, Ct|]; reflexivity.
  - intros files runtime e' I. in_log I.
  - right. right. now exists d.
Qed.

End Removal_order.

(** ** Installing *)

Section Kinds.

Context {P : Package} {H : Host}.

Lemma Stop_kinds (s : Service) :
  emits (fun e => negb (is_disable e || is_delete e || is_setup e)) (Stop s).
Proof. emits_tac. Qed.

Lemma Remove_kinds (s : Service) :
  emits (fun e => negb (is_stop e || is_setup e)) (Remove s).
Proof. emits_tac. Qed.

Lemma Install_unit_kinds (s : Service) :
  emits (fun e => negb (is_teardown e)) (Install_unit s).
Proof. emits_tac. Qed.

Lemma count_kinds {Q R : Event -> bool} {t : list Event} :
  (forall e, R e = true -> Q e = true) ->
  Forall (fun e => negb (Q e) = true) t ->
  count R t = 0.
Proof.
  intros RQ F. apply (count_none (Q := fun e => negb (Q e))); [|exact F].
  intros e Qe. apply negb_true_iff in Qe.
  destruct (R e) eqn:Re; [|reflexivity].
  rewrite (RQ e Re) in Qe. discriminate.
Qed.

Lemma Exists_true_check (s : Service) {w w' t} :
  Exists s w = (Returns true, w', t) ->
  check s w = (Returns (true, None), w', t).
Proof.
  rewrite Exists_check.
  destruct (check s w) as [[[[same [e|]]|] w2] t2]; intros E;
    inversion E; subst; reflexivity.
Qed.

Lemma quiet_Installed (s : Service) {w} :
  quiet w -> final (Installed s w) = w.
Proof.
  intros (Qc & Qx & Ql & _). rewrite Installed_run.
  destruct (newConn w) as [[e|c] w1]; simpl in Qc; subst w1; [reflexivity|].
  specialize (Ql c).
  destruct (ListUnits c w) as [[e|units] w2]; simpl in Ql; subst w2;
    apply Qx.
Qed.

Lemma quiet_Exists (s : Service) {w} :
  quiet w -> final (Exists s w) = w.
Proof.
  intros (Qc & Qx & _ & Qg). rewrite Exists_check, check_run.
  destruct (newConn w) as [[e|c] w1]; simpl in Qc; subst w1; [reflexivity|].
  specialize (Qg c (UnitName s) "Service"%string).
  destruct (getUnitOptions c (UnitName s) "Service" w) as [[e|opts] w2];
    simpl in Qg; subst w2; [apply Qx|].
  destruct (deserializeOptions opts) as [e|conf]; apply Qx.
Qed.

End Kinds.

(** ** Writing and enabling the unit *)

Section Writing.

Context {P : Package} {H : Host}.

Lemma Install_unit_installs (s : Service) w :
  installs s (log (Install_unit s w)) (result (Install_unit s w)).
Proof.
  unfold Install_unit, writeConf, defer_Close, do_mkdirAll, do_createFile,
    do_newConn, do_EnableUnitFiles, do_Close, bind, call, ret, result, log.
  destruct (serialize (UnitName s) (Conf s)) as [e|data] eqn:Es; simpl.
  { now apply installs_not_serialized. }
  destruct (mkdirAll (Dirname s) w) as [[e|] w1]; simpl.
  { now apply installs_no_directory with (data := data). }
  destruct (Script s) as [script|] eqn:Ek; simpl.
  - destruct (createFile (ExecStart (Conf s)) script perm_0755 w1)
      as [[e|] w2]; simpl.
    { now apply installs_no_script with (data := data). }
    destruct (createFile (path_Join [Dirname s; ConfName s]) data
                perm_0644 w2) as [[e|] w3]; simpl.
    { generalize (installs_no_unit_file s data e Es).
      unfold script_file. now rewrite Ek. }
    destruct (newConn w3) as [[e|c] w4]; simpl.
    { generalize (installs_no_connection s data e Es).
      unfold script_file. now rewrite Ek. }
    destruct (EnableUnitFiles c [path_Join [Dirname s; ConfName s]]
                false true w4) as [err w5]; simpl.
    generalize (installs_enabled s data err Es).
    unfold script_file. now rewrite Ek.
  - destruct (createFile (path_Join [Dirname s; ConfName s]) data
                perm_0644 w1) as [[e|] w3]; simpl.
    { generalize (installs_no_unit_file s data e Es).
      unfold script_file. now rewrite Ek. }
    destruct (newConn w3) as [[e|c] w4]; simpl.
    { generalize (installs_no_connection s data e Es).
      unfold script_file. now rewrite Ek. }
    destruct (EnableUnitFiles c [path_Join [Dirname s; ConfName s]]
                false true w4) as [err w5]; simpl.
    generalize (installs_enabled s data err Es).
    unfold script_file. now rewrite Ek.
Qed.

End Writing.

(** ** Stopping and removing, step by step *)

Section Teardown.

Context {P : Package} {H : Host}.

Lemma Stop_described (s : Service) w :
  exists running wq tq ts rs ws,
    Running s w = (Returns running, wq, tq) /\
    Stop s w = (rs, ws, tq ++ ts) /\
    (if running then stops s ts rs
     else ts = [] /\ rs = Returns None /\ ws = wq).
Proof.
  destruct (Running_total s w) as (running & wq & tq & Er & _).
  destruct running.
  - assert (E := Stop_request s Er).
    destruct (newConn wq) as [[e|c] w2].
    { exists true, wq, tq, [EvNewConn (Some e)]. do 2 eexists.
      split; [exact Er|]. split; [exact E|]. constructor. }
    destruct (newChan w2) as [ch w3].
    destruct (StopUnit c (UnitName s) "fail" ch w3) as [[e|] w4].
    { exists true, wq, tq. do 3 eexists.
      split; [exact Er|]. split; [exact E|]. constructor. }
    destruct (recv ch w4) as [[status|] w5].
    + exists true, wq, tq. do 3 eexists.
      split; [exact Er|]. split; [exact E|].
      destruct (String.eqb_spec status "done") as [->|N].
      * apply stops_done.
      * now apply stops_not_done.
    + exists true, wq, tq. do 3 eexists.
      split; [exact Er|]. split; [exact E|]. constructor.
  - exists false, wq, tq, [], (Returns None), wq.
    split; [exact Er|]. split; [|auto].
    unfold Stop, bind. rewrite Er. reflexivity.
Qed.

Lemma Remove_described (s : Service) w :
  exists installed wi ti tr rr w3,
    Installed s w = (Returns installed, wi, ti) /\
    Remove s w = (Returns rr, w3, ti ++ tr) /\
    (if installed then removes s tr (Returns rr)
     else tr = [] /\ rr = None /\ w3 = wi).
Proof.
  destruct (Installed_total s w) as (installed & wi & ti & Ei & _).
  destruct installed.
  - assert (E := Remove_request s Ei).
    destruct (newConn wi) as [[e|c] w2].
    { exists true, wi, ti. do 3 eexists.
      split; [exact Ei|]. split; [exact E|]. constructor. }
    destruct (DisableUnitFiles c [UnitName s] false w2) as [[e|] w3].
    { exists true, wi, ti. do 3 eexists.
      split; [exact Ei|]. split; [exact E|]. constructor. }
    destruct (removeAll (Dirname s) w3) as [d w4].
    exists true, wi, ti. do 3 eexists.
    split; [exact Ei|]. split; [exact E|]. constructor.
  - exists false, wi, ti, [], None, wi.
    split; [exact Ei|]. split; [|auto].
    unfold Remove, bind. rewrite Ei. reflexivity.
Qed.

End Teardown.

Section Installation.

Context {P : Package} {H : Host}.

(** C1.  When the look-up [Installed] and then the check behind
    [Exists] both report [true], [Install] returns [nil]; its log is the
    log of these two look-ups and holds queries only: nothing is written,
    enabled, stopped, disabled or deleted, and the host is left in the
    state the look-ups left it in.  On a host that answers look-ups
    without changing state, the state is the initial one: [Exists] is
    still [true] there and a further [Install] does the same again. *)
Theorem Install_matching_is_noop :
  forall (s : Service) w w1 t1 w2 t2,
    Installed s w = (Returns true, w1, t1) ->
    Exists s w1 = (Returns true, w2, t2) ->
    Install s w = (Returns None, w2, t1 ++ t2) /\
    Forall (fun e => is_query e = true) (t1 ++ t2) /\
    count is_setup (t1 ++ t2) = 0 /\
    count is_teardown (t1 ++ t2) = 0 /\
    (quiet w ->
     w2 = w /\
     Exists s w2 = (Returns true, w2, t2) /\
     Install s w2 = (Returns None, w2, t1 ++ t2)).
Proof.
  intros s w w1 t1 w2 t2 Ei Ee.
  assert (Ec := Exists_true_check s Ee).
  assert (I : Install s w = (Returns None, w2, t1 ++ t2)).
  { unfold Install, bind. rewrite Ei. simpl. rewrite Ec. simpl.
    now rewrite app_nil_r. }
  assert (Q : Forall (fun e => is_query e = true) (t1 ++ t2)).
  { apply Forall_app. split.
    - exact (emits_run (Installed_queries s) Ei).
    - exact (emits_run (Exists_queries s) Ee). }
  split; [exact I|]. split; [exact Q|].
  split; [apply (count_none query_no_setup Q)|].
  split; [apply (count_none query_no_teardown Q)|].
  intros Qw.
  assert (W1 : w1 = w).
  { rewrite <- (quiet_Installed s Qw), Ei. reflexivity. }
  subst w1.
  assert (W2 : w2 = w).
  { rewrite <- (quiet_Exists s Qw), Ee. reflexivity. }
  subst w2. auto.
Qed.

(** C4.  [Install] of a service that is installed and whose live
    configuration was read and differs from the desired one.  After the
    two look-ups it runs [Stop]: the look-up [Running] and, if it is
    [true], the stop request as [stops] describes it.  When [Stop]
    returns an error, [StopAndRemove] returns it traced and [Install]
    returns it annotated; the log ends there.  When [Stop] returns [nil]
    it runs [Remove]: the look-up [Installed] and, if it is [true], the
    disabling and the deletion as [removes] describes them; an error of
    [Remove] is returned by [StopAndRemove] traced and by [Install]
    annotated, and the log ends there.  Only when both returned [nil]
    does [Install] write and enable the new unit, as [installs] describes
    it.  So in the log every stop comes before every disabling and
    deletion, these come before every creation, write and enabling, and
    nothing is created, written or enabled when the stop or the removal
    failed. *)
Theorem Install_supersedes_old_unit :
  forall (s : Service) w w1 t1 w2 t2 r w' t,
    Installed s w = (Returns true, w1, t1) ->
    check s w1 = (Returns (false, None), w2, t2) ->
    Install s w = (r, w', t) ->
    exists running wq tq ts rs ws,
      Running s w2 = (Returns running, wq, tq) /\
      Stop s w2 = (rs, ws, tq ++ ts) /\
      (if running then stops s ts rs
       else ts = [] /\ rs = Returns None /\ ws = wq) /\
      count is_disable (t1 ++ t2 ++ tq ++ ts) = 0 /\
      count is_delete (t1 ++ t2 ++ tq ++ ts) = 0 /\
      count is_setup (t1 ++ t2 ++ tq ++ ts) = 0 /\
      match rs with
      | Blocks =>
          StopAndRemove s w2 = (Blocks, ws, tq ++ ts) /\
          r = Blocks /\ w' = ws /\ t = t1 ++ t2 ++ tq ++ ts
      | Returns (Some e) =>
          StopAndRemove s w2 = (Returns (Some (Traced e)), ws, tq ++ ts) /\
          r = Returns
                (Some (Annotated (Traced e)
                         "systemd: could not remove old service")) /\
          w' = ws /\ t = t1 ++ t2 ++ tq ++ ts
      | Returns None =>
          exists installed wi ti tr rr w3,
            Installed s ws = (Returns installed, wi, ti) /\
            Remove s ws = (Returns rr, w3, ti ++ tr) /\
            (if installed then removes s tr (Returns rr)
             else tr = [] /\ rr = None /\ w3 = wi) /\
            StopAndRemove s w2
            = (Returns (Trace rr), w3, (tq ++ ts) ++ ti ++ tr) /\
            count is_stop (ti ++ tr) = 0 /\
            count is_setup (ti ++ tr) = 0 /\
            match rr with
            | Some e =>
                r = Returns
                      (Some (Annotated (Traced e)
                               "systemd: could not remove old service")) /\
                w' = w3 /\
                t = t1 ++ t2 ++ tq ++ ts ++ ti ++ tr
            | None =>
                exists t4,
                  Install_unit s w3 = (r, w', t4) /\
                  installs s t4 r /\
                  count is_teardown t4 = 0 /\
                  t = t1 ++ t2 ++ tq ++ ts ++ ti ++ tr ++ t4
            end
      end.
Proof.
  intros s w w1 t1 w2 t2 r w' t Ei Ec E.
  assert (Q1 := emits_run (Installed_queries s) Ei).
  assert (Q2 := emits_run (check_queries s) Ec).
  destruct (Stop_described s w2)
    as (running & wq & tq & ts & rs & ws & Er & Es & Ds).
  assert (Ks := emits_run (Stop_kinds s) Es).
  assert (Cs : count is_disable (tq ++ ts) = 0 /\
               count is_delete (tq ++ ts) = 0 /\
               count is_setup (tq ++ ts) = 0).
  { repeat split; (eapply count_kinds; [|exact Ks]); intros e He;
      cbv beta; rewrite He; now rewrite ?orb_true_r. }
  destruct Cs as (Cs1 & Cs2 & Cs3).
  assert (D1 := count_none query_no_disable Q1).
  assert (D2 := count_none query_no_disable Q2).
  assert (X1 := count_none query_no_delete Q1).
  assert (X2 := count_none query_no_delete Q2).
  assert (S1 := count_none query_no_setup Q1).
  assert (S2 := count_none query_no_setup Q2).
  exists running, wq, tq, ts, rs, ws.
  split; [exact Er|]. split; [exact Es|]. split; [exact Ds|].
  split; [rewrite !count_app in *; lia|].
  split; [rewrite !count_app in *; lia|].
  split; [rewrite !count_app in *; lia|].
  unfold Install, bind in E. rewrite Ei in E. simpl in E.
  rewrite Ec in E. simpl in E.
  unfold StopAndRemove, bind in *. rewrite Es in *.
  destruct rs as [[e|]|].
  - simpl in *. inversion E; subst.
    rewrite !app_nil_r. repeat split.
  - destruct (Remove_described s ws)
      as (installed & wi & ti & tr & rr & w3 & Ei' & Em & Dm).
    assert (Km := emits_run (Remove_kinds s) Em).
    rewrite Em in *. simpl in *.
    exists installed, wi, ti, tr, rr, w3.
    split; [exact Ei'|]. split; [reflexivity|]. split; [exact Dm|].
    split; [now rewrite app_nil_r|].
    split; [eapply count_kinds; [|exact Km]; intros e He; cbv beta;
            now rewrite He|].
    split; [eapply count_kinds; [|exact Km]; intros e He; cbv beta;
            rewrite He; now rewrite orb_true_r|].
    destruct rr as [e|]; simpl in E.
    + inversion E; subst.
      rewrite !app_nil_r, <- !app_assoc. repeat split.
    + destruct (Install_unit s w3) as [[r4 w4] t4] eqn:E4.
      assert (I4 := Install_unit_installs s w3).
      assert (K4 := emits_run (Install_unit_kinds s) E4).
      rewrite E4 in I4. unfold log, result in I4; simpl in I4.
      inversion E; subst.
      exists t4. split; [reflexivity|]. split; [exact I4|].
      split; [eapply count_kinds; [|exact K4]; auto|].
      now rewrite !app_nil_r, <- !app_assoc.
  - inversion E; subst. repeat split.
Qed.

End Installation.

(** ** The reconciliation check and the desired configuration *)

Section Reconciliation.

Context {P : Package} {H : Host}.

(** C2, as the code has it.  [Exists] returns [true] exactly when a
    connection opens, the options of the unit of the service are read
    and deserialized without error, and the configuration obtained is
    [DeepEqual] to the desired one.  It always returns, and all it does
    is open a connection, call [getUnitOptions] and close: it calls
    neither [Installed] nor [ListUnits], so whether the service is among
    the listed ones plays no part. *)
Theorem Exists_iff_live_conf_equal :
  forall (s : Service) w,
    (result (Exists s w) = Returns true <->
     exists c w1 opts w2 conf,
       newConn w = (inr c, w1) /\
       getUnitOptions c (UnitName s) "Service" w1 = (inr opts, w2) /\
       deserializeOptions opts = inr conf /\
       DeepEqual (Conf s) conf = true) /\
    (exists b, result (Exists s w) = Returns b) /\
    Forall (fun e => is_query e = true) (log (Exists s w)) /\
    count is_ListUnits (log (Exists s w)) = 0.
Proof.
  intros s w. split; [|split; [|split]].
  - rewrite Exists_check, check_run. split.
    + destruct (newConn w) as [[e|c] w1]; [discriminate|].
      destruct (getUnitOptions c (UnitName s) "Service" w1)
        as [[e|opts] w2] eqn:Eg; [discriminate|].
      destruct (deserializeOptions opts) as [e|conf] eqn:Ed; [discriminate|].
      unfold result; simpl. intros E.
      exists c, w1, opts, w2, conf. repeat split; auto. congruence.
    + intros (c & w1 & opts & w2 & conf & Ec & Eg & Ed & Eq).
      rewrite Ec, Eg, Ed, Eq. reflexivity.
  - rewrite Exists_check, check_run.
    destruct (newConn w) as [[e|c] w1]; [now eexists|].
    destruct (getUnitOptions c (UnitName s) "Service" w1)
      as [[e|opts] w2]; [now eexists|].
    destruct (deserializeOptions opts) as [e|conf]; now eexists.
  - apply Exists_queries.
  - rewrite Exists_check, check_run.
    destruct (newConn w) as [[e|c] w1]; [reflexivity|].
    destruct (getUnitOptions c (UnitName s) "Service" w1)
      as [[e|opts] w2]; [reflexivity|].
    destruct (deserializeOptions opts) as [e|conf]; reflexivity.
Qed.

(** C3, as the code has it.  [UpdateConfig] normalizes the new
    configuration against the script path of the service and validates
    it.  When validation passes, the configuration and the script of the
    controller are replaced by the normalized ones and nothing else
    changes.  When validation fails, the controller is left as it was;
    [setConf] returns the error traced and [UpdateConfig] drops it, so
    that the caller is left with exactly what an update that succeeds
    without changing anything leaves. *)
Theorem UpdateConfig_replaces_or_keeps :
  forall (s : Service) conf normalConf data,
    normalize conf (path_Join [Dirname s; "exec-start.sh"%string])
    = (normalConf, data) ->
    (validate (Name s) normalConf = None ->
     UpdateConfig s conf
     = {| Name := Name s; Conf := normalConf; ConfName := ConfName s;
          UnitName := UnitName s; Dirname := Dirname s; Script := data |} /\
     snd (setConf s conf) = None) /\
    (forall e,
        validate (Name s) normalConf = Some e ->
        UpdateConfig s conf = s /\
        snd (setConf s conf) = Some (Traced e) /\
        forall conf',
          setConf s conf' = (s, None) ->
          UpdateConfig s conf = UpdateConfig s conf').
Proof.
  intros s conf normalConf data En. unfold UpdateConfig, setConf.
  rewrite En. split.
  - intros ->. split; reflexivity.
  - intros e ->. split; [reflexivity|]. split; [reflexivity|].
    intros conf' E'. unfold setConf in E'. rewrite E'. reflexivity.
Qed.

End Reconciliation.

(** ** Connections are scoped to the call *)

Section Scopes.

Context {P : Package} {H : Host}.

Lemma count_cons (Q : Event -> bool) (e : Event) (t : list Event) :
  count Q (e :: t) = (if Q e then 1 else 0) + count Q t.
Proof. unfold count. simpl. now destruct (Q e). Qed.

Lemma within_nil (d : nat) : d <= 1 -> within d false [].
Proof.
  intros D. split; [|reflexivity].
  intros p q E. symmetry in E. apply app_eq_nil in E as [-> _].
  unfold count; simpl. lia.
Qed.

Lemma within_cons (d : nat) (b : bool) (e : Event) (t : list Event) :
  d <= 1 ->
  is_opened e = false -> is_Close e = false ->
  within d b t -> within d b (e :: t).
Proof.
  intros D O C [Pre Fin]. split.
  - intros [|e' p] q E.
    + unfold count; simpl. lia.
    + simpl in E. inversion E; subst e' t.
      rewrite !count_cons, O, C. simpl. apply (Pre p q eq_refl).
  - rewrite !count_cons, O, C. exact Fin.
Qed.

Lemma within_app (d : nat) (b : bool) (t1 t2 : list Event) :
  within d false t1 -> within d b t2 -> within d b (t1 ++ t2).
Proof.
  intros [Pre1 Fin1] [Pre2 Fin2]. split.
  - intros p q E. apply app_eq_app in E as [l [[-> ->]|[-> ->]]].
    + apply (Pre1 p l eq_refl).
    + rewrite !count_app, Fin1.
      specialize (Pre2 l q eq_refl). lia.
  - rewrite !count_app, Fin1. destruct b; lia.
Qed.

Lemma within_opened (b : bool) (t : list Event) :
  within 1 b t ->
  within 0 b (EvNewConn None :: t ++ if b then [] else [EvClose]).
Proof.
  intros [Pre Fin]. split.
  - intros [|e p] q E.
    + unfold count; simpl. lia.
    + simpl in E. inversion E as [[Ee Et]]. clear E.
      rewrite !count_cons. simpl.
      apply app_eq_app in Et as [l [[-> El]|[-> El]]].
      * specialize (Pre p l eq_refl). lia.
      * rewrite !count_app. destruct b.
        { symmetry in El. apply app_eq_nil in El as [-> ->].
          unfold count in *; simpl; lia. }
        { destruct l as [|e' l]; [unfold count in *; simpl; lia|].
          inversion El as [[Ee' El']]. symmetry in El'.
          apply app_eq_nil in El' as [-> ->].
          unfold count in *; simpl; lia. }
  - rewrite !count_cons, !count_app. simpl.
    destruct b; unfold count in *; simpl; lia.
Qed.

Lemma tracks_ret {A : Type} (d : nat) (a : A) : d <= 1 -> tracks d (ret a).
Proof. intros D w. now apply within_nil. Qed.

Lemma tracks_bind {A B : Type} (d : nat) (m : M A) (k : A -> M B) :
  tracks d m -> (forall a, tracks d (k a)) -> tracks d (bind m k).
Proof.
  intros Hm Hk w. specialize (Hm w). unfold bind, result, log in *.
  destruct (m w) as [[[a|] w1] t1]; simpl in *; [|exact Hm].
  specialize (Hk a w1). destruct (k a w1) as [[r w2] t2]; simpl in *.
  now apply within_app.
Qed.

Lemma tracks_call {A : Type} (d : nat) (op : World -> A * World)
  (ev : A -> Event) :
  d <= 1 ->
  (forall a, is_opened (ev a) = false /\ is_Close (ev a) = false) ->
  tracks d (call op ev).
Proof.
  intros D N w. unfold call, result, log. destruct (op w) as [a w']; simpl.
  destruct (N a) as [O C]. apply within_cons; auto. now apply within_nil.
Qed.

Lemma tracks_receive (ch : Chan) : tracks 1 (receive ch).
Proof.
  intros w. unfold receive, result, log.
  destruct (recv ch w) as [[status|] w']; simpl.
  - apply within_cons; auto. now apply within_nil.
  - split.
    + intros [|e p] q E; [unfold count; simpl; lia|].
      inversion E as [[Ee Ep]]. symmetry in Ep.
      apply app_eq_nil in Ep as [-> ->]. unfold count; simpl. lia.
    + reflexivity.
Qed.

(** The pattern of every operation that talks to the manager: open,
    return on failure, otherwise run the body and close. *)
Lemma tracks_conn {A : Type} (onerr : error -> M A) (body : Conn -> M A) :
  (forall e, tracks 0 (onerr e)) ->
  (forall c, tracks 1 (body c)) ->
  tracks 0
    (bind do_newConn
       (fun c =>
          match c with
          | inl e => onerr e
          | inr conn => defer_Close conn (body conn)
          end)).
Proof.
  intros He Hb w.
  unfold bind, do_newConn, defer_Close, do_Close, call, ret, result, log.
  destruct (newConn w) as [[e|c] w1]; simpl.
  - specialize (He e w1). unfold result, log in He.
    destruct (onerr e w1) as [[r w2] t]; simpl in *.
    apply within_cons; auto.
  - specialize (Hb c w1). unfold bind, result, log in *.
    destruct (body c w1) as [[[a|] w2] t]; simpl in *.
    + apply (within_opened false) in Hb. exact Hb.
    + apply (within_opened true) in Hb. now rewrite app_nil_r in Hb.
Qed.

End Scopes.

Section Scoped_operations.

Context {P : Package} {H : Host}.

(** X1.  Every operation of the controller scopes its connections to
    the call: in its log no connection is opened while another is open,
    none is closed that is not open; when the operation returns, each
    connection it opened has been closed, on the failure paths as well;
    when it blocks on the completion of a job, the one connection of the
    request is left open. *)
Theorem connections_are_scoped :
  forall (s : Service),
    scoped ListServices /\
    scoped (Installed s) /\
    scoped (Exists s) /\
    scoped (Running s) /\
    scoped (Start s) /\
    scoped (Stop s) /\
    scoped (Remove s) /\
    scoped (StopAndRemove s) /\
    scoped (Install s).
Proof.
  intros s.
  repeat match goal with |- _ /\ _ => split end;
    unfold scoped;
    repeat first
      [ apply tracks_ret; lia
      | apply tracks_conn; intros ?
      | apply tracks_bind; [|intros ?]
      | apply tracks_call; [lia | intros; split; reflexivity]
      | apply tracks_receive
      | match goal with
        | |- tracks _ (match ?x with _ => _ end) => destruct x
        | |- tracks _ ?m => let h := head_of m in progress unfold h
        end ].
Qed.

End Scoped_operations.

(** ** What the operations leave alone *)

Section Restraint.

Context {P : Package} {H : Host}.

Lemma Start_restraint (s : Service) :
  emits (fun e => negb (is_teardown e || is_setup e)) (Start s).
Proof. emits_tac. Qed.

Lemma Stop_restraint (s : Service) :
  emits (fun e => negb (is_start e || is_disable e || is_delete e ||
                        is_setup e)) (Stop s).
Proof. emits_tac. Qed.

Lemma Remove_restraint (s : Service) :
  emits (fun e => negb (is_start e || is_stop e || is_recv e || is_setup e))
        (Remove s).
Proof. emits_tac. Qed.

Lemma StopAndRemove_restraint (s : Service) :
  emits (fun e => negb (is_start e || is_setup e)) (StopAndRemove s).
Proof. emits_tac. Qed.

Lemma Install_restraint (s : Service) :
  emits (fun e => negb (is_start e)) (Install s).
Proof. emits_tac. Qed.

Lemma emits_count {A : Type} (Q R : Event -> bool) (m : M A) w :
  (forall e, R e = true -> Q e = true) ->
  emits (fun e => negb (Q e)) m ->
  count R (log (m w)) = 0.
Proof.
  intros RQ Hm. eapply count_kinds; [exact RQ|]. apply Hm.
Qed.

(** X2.  What the actions never ask of the host.  [Start] never stops,
    disables, deletes, writes or enables.  [Stop] never starts,
    disables, deletes, writes or enables.  [Remove] never starts or
    stops a unit, never waits for a job and never writes or enables.
    [StopAndRemove] never starts, writes or enables.  [Install] enables
    the unit but never starts it. *)
Theorem actions_keep_to_their_task :
  forall (s : Service) w,
    (count is_teardown (log (Start s w)) = 0 /\
     count is_setup (log (Start s w)) = 0) /\
    (count is_start (log (Stop s w)) = 0 /\
     count is_disable (log (Stop s w)) = 0 /\
     count is_delete (log (Stop s w)) = 0 /\
     count is_setup (log (Stop s w)) = 0) /\
    (count is_start (log (Remove s w)) = 0 /\
     count is_stop (log (Remove s w)) = 0 /\
     count is_recv (log (Remove s w)) = 0 /\
     count is_setup (log (Remove s w)) = 0) /\
    (count is_start (log (StopAndRemove s w)) = 0 /\
     count is_setup (log (StopAndRemove s w)) = 0) /\
    count is_start (log (Install s w)) = 0.
Proof.
  intros s w.
  repeat match goal with |- _ /\ _ => split end.
  all: (eapply emits_count;
        [|first [apply Start_restraint | apply Stop_restraint
                | apply Remove_restraint | apply StopAndRemove_restraint
                | apply Install_restraint]]);
    intros e He; cbv beta; rewrite He; now rewrite ?orb_true_r.
Qed.

(** X3.  A manager that cannot be reached, or that does not list its
    units, reads as "not running" and "not installed": [Stop] and
    [Remove] return [nil] and do nothing more, [Start] returns the
    not-found error, and [Install] goes on to write and enable the unit
    as for a service that is not installed. *)
Theorem failed_lookup_reads_as_absent :
  forall (s : Service) w w1 t,
    ((exists e, newConn w = (inl e, w1) /\ t = [EvNewConn (Some e)]) \/
     (exists c w0 e w2,
         newConn w = (inr c, w0) /\ ListUnits c w0 = (inl e, w2) /\
         w1 = Close c w2 /\
         t = [EvNewConn None; EvListUnits (Some e); EvClose])) ->
    Stop s w = (Returns None, w1, t) /\
    Remove s w = (Returns None, w1, t) /\
    Start s w
    = (Returns (Some (NotFoundf ("service " ++ Name s) [])), w1, t) /\
    result (Install s w) = result (Install_unit s w1) /\
    final (Install s w) = final (Install_unit s w1) /\
    log (Install s w) = t ++ log (Install_unit s w1).
Proof.
  intros s w w1 t F.
  assert (Ei : Installed s w = (Returns false, w1, t)).
  { rewrite Installed_run.
    destruct F as [(e & -> & ->)|(c & w0 & e & w2 & -> & -> & -> & ->)];
      reflexivity. }
  assert (Er : Running s w = (Returns false, w1, t)).
  { rewrite Running_run.
    destruct F as [(e & -> & ->)|(c & w0 & e & w2 & -> & -> & -> & ->)];
      reflexivity. }
  repeat match goal with |- _ /\ _ => split end.
  - unfold Stop, bind. rewrite Er. simpl. now rewrite app_nil_r.
  - unfold Remove, bind. rewrite Ei. simpl. now rewrite app_nil_r.
  - unfold Start, bind. rewrite Ei. simpl. now rewrite app_nil_r.
  - unfold Install, bind. rewrite Ei. simpl.
    now destruct (Install_unit s w1) as [[r w2] t2].
  - unfold Install, bind. rewrite Ei. simpl.
    now destruct (Install_unit s w1) as [[r w2] t2].
  - unfold Install, bind. rewrite Ei. simpl.
    now destruct (Install_unit s w1) as [[r w2] t2].
Qed.

(** X4.  When the service is installed and its live configuration
    cannot be read (the connection, [getUnitOptions] or
    [deserializeOptions] fails), [Install] returns the error of the
    check traced and stops there: the old unit is neither stopped nor
    removed and nothing is written or enabled. *)
Theorem Install_stops_at_unreadable_unit :
  forall (s : Service) w w1 t1 same err w2 t2,
    Installed s w = (Returns true, w1, t1) ->
    check s w1 = (Returns (same, Some err), w2, t2) ->
    Install s w = (Returns (Some (Traced err)), w2, t1 ++ t2) /\
    Exists s w1 = (Returns false, w2, t2) /\
    Forall (fun e => is_query e = true) (t1 ++ t2) /\
    count is_teardown (t1 ++ t2) = 0 /\
    count is_setup (t1 ++ t2) = 0.
Proof.
  intros s w w1 t1 same err w2 t2 Ei Ec.
  assert (Q : Forall (fun e => is_query e = true) (t1 ++ t2)).
  { apply Forall_app. split.
    - exact (emits_run (Installed_queries s) Ei).
    - exact (emits_run (check_queries s) Ec). }
  repeat match goal with |- _ /\ _ => split end.
  - unfold Install, bind. rewrite Ei. simpl. rewrite Ec.
    destruct same; simpl; now rewrite app_nil_r.
  - rewrite Exists_check, Ec. reflexivity.
  - exact Q.
  - exact (count_none query_no_teardown Q).
  - exact (count_none query_no_setup Q).
Qed.

(** X5.  [StopAndRemove] stops at the first failure: when [Stop]
    returns an error, whatever its cause, [StopAndRemove] returns it
    traced with the log and the state of [Stop]; [Remove] is not run, so
    nothing is looked up again, disabled or deleted.  When [Stop] returns
    [nil], the result is that of [Remove], run in the state [Stop] left. *)
Theorem StopAndRemove_stops_at_first_failure :
  forall (s : Service) w rs ws ts,
    Stop s w = (rs, ws, ts) ->
    (forall e,
        rs = Returns (Some e) ->
        StopAndRemove s w = (Returns (Some (Traced e)), ws, ts) /\
        count is_disable ts = 0 /\ count is_delete ts = 0) /\
    (rs = Blocks -> StopAndRemove s w = (Blocks, ws, ts)) /\
    (rs = Returns None ->
     forall rr wr tr,
       Remove s ws = (Returns rr, wr, tr) ->
       StopAndRemove s w = (Returns (Trace rr), wr, ts ++ tr)).
Proof.
  intros s w rs ws ts Es.
  assert (Ks := emits_run (Stop_restraint s) Es).
  split; [|split].
  - intros e ->. split; [|split].
    + unfold StopAndRemove, bind. rewrite Es. simpl.
      now rewrite app_nil_r.
    + eapply count_kinds; [|exact Ks]. intros x Hx. cbv beta.
      rewrite Hx. now rewrite ?orb_true_r.
    + eapply count_kinds; [|exact Ks]. intros x Hx. cbv beta.
      rewrite Hx. now rewrite ?orb_true_r.
  - intros ->. unfold StopAndRemove, bind. now rewrite Es.
  - intros -> rr wr tr Er. unfold StopAndRemove, bind.
    rewrite Es. simpl. rewrite Er. simpl. now rewrite app_nil_r.
Qed.

End Restraint.

Section Fresh_install.

Context {P : Package} {H : Host}.

Lemma Installed_reads_no_options (s : Service) :
  emits (fun e => negb (is_GetUnitOptions e)) (Installed s).
Proof. emits_tac. Qed.

Lemma Install_unit_reads_no_options (s : Service) :
  emits (fun e => negb (is_GetUnitOptions e)) (Install_unit s).
Proof. emits_tac. Qed.

(** X6.  The statements of [Install] after its [if] block write and
    enable the unit in a fixed order and stop at the first failure:
    serialize, [mkdirAll] of the directory, the script with mode 0755 if
    the service has one, the unit file with mode 0644 under
    [path.Join(Dirname, ConfName)], a connection, [EnableUnitFiles] of
    that file; the relation [installs] lists the six ways this can end.
    For a service that [Installed] reports absent, [Install] is the
    look-up followed by these steps: the live configuration is not read
    and nothing is stopped, disabled or deleted; it returns [nil] only
    after every step succeeded. *)
Theorem Install_writes_then_enables :
  forall (s : Service) w,
    installs s (log (Install_unit s w)) (result (Install_unit s w)) /\
    forall w1 t1,
      Installed s w = (Returns false, w1, t1) ->
      exists t2,
        log (Install s w) = t1 ++ t2 /\
        installs s t2 (result (Install s w)) /\
        count is_teardown (log (Install s w)) = 0 /\
        count is_GetUnitOptions (log (Install s w)) = 0 /\
        (result (Install s w) = Returns None ->
         exists data,
           serialize (UnitName s) (Conf s) = inr data /\
           t2 = EvMkdirAll (Dirname s) None :: script_file s ++
                [EvCreateFile (path_Join [Dirname s; ConfName s]) data perm_0644
                   None;
                 EvNewConn None;
                 EvEnableUnitFiles [path_Join [Dirname s; ConfName s]]
                   false true None;
                 EvClose]).
Proof.
  intros s w. split; [apply Install_unit_installs|].
  intros w1 t1 Ei.
  assert (I := Install_unit_installs s w1).
  assert (K := Install_unit_kinds s w1).
  assert (G := Install_unit_reads_no_options s w1).
  assert (Q := emits_run (Installed_queries s) Ei).
  assert (G1 := emits_run (Installed_reads_no_options s) Ei).
  assert (Hr : result (Install s w) = result (Install_unit s w1)).
  { unfold Install, bind. rewrite Ei. simpl.
    now destruct (Install_unit s w1) as [[r w2] t2]. }
  assert (Hl : log (Install s w) = t1 ++ log (Install_unit s w1)).
  { unfold Install, bind. rewrite Ei. simpl.
    now destruct (Install_unit s w1) as [[r w2] t2]. }
  rewrite Hr, Hl.
  exists (log (Install_unit s w1)).
  split; [reflexivity|]. split; [exact I|].
  split.
  { rewrite count_app, (count_none query_no_teardown Q). simpl.
    eapply count_kinds; [|exact K]. auto. }
  split.
  { rewrite count_app. rewrite (@count_kinds is_GetUnitOptions
                                   is_GetUnitOptions t1 (fun e He => He) G1).
    simpl. eapply count_kinds; [|exact G]. auto. }
  intros R. rewrite R in I.
  inversion I as [| | | | |data err Es Et Er].
  destruct err; [discriminate|].
  exists data. split; [exact Es | reflexivity].
Qed.

End Fresh_install.

(** ** The commands of a remote install *)

Section Remote_install.

Context {P : Package} {H : Host}.

(** X7.  [InstallCommands] fails exactly when the configuration does
    not serialize, with that error traced.  Otherwise it returns two
    commands: one that appends to /tmp/CONFNAME, through a here-document
    closed by EOF, the bytes of the unit file exactly as serialized (they
    are an operand of the format, so a [%] in them is copied like any
    other byte), and "systemd start /tmp/CONFNAME".  The bytes are those
    that [Install] writes to the unit file with mode 0644. *)
Theorem InstallCommands_carry_the_unit_file :
  forall (s : Service),
    (forall e,
        serialize (UnitName s) (Conf s) = inl e ->
        InstallCommands s = inl (Traced e)) /\
    (forall data,
        serialize (UnitName s) (Conf s) = inr data ->
        InstallCommands s
        = inr [Some ("cat >> /tmp/" ++ ConfName s ++ " << 'EOF'" ++
                     newline ++ string_of_list_byte data ++ "EOF" ++
                     newline)%string;
               Some ("systemd start /tmp/" ++ ConfName s)%string] /\
        forall w filename written err,
          In (EvCreateFile filename written perm_0644 err)
             (log (Install_unit s w)) ->
          written = data).
Proof.
  intros s. split.
  - intros e Es. unfold InstallCommands. now rewrite Es.
  - intros data Es. split.
    + unfold InstallCommands. rewrite Es. reflexivity.
    + intros w filename written err I.
      assert (S := Install_unit_installs s w).
      assert (N : forall x, In x (script_file s) ->
                            x <> EvCreateFile filename written perm_0644 err).
      { unfold script_file. destruct (Script s); simpl; [|tauto].
        intros x [<-|[]]. discriminate. }
      inversion S as [e Es' Et|d e Es' Et|d k e Es' Ek Et|d e Es' Et
                      |d e Es' Et|d e Es' Et];
        rewrite <- Et in I; clear Et S;
        rewrite Es in Es'; inversion Es'; subst d;
        simpl in I; rewrite ?in_app_iff in I; simpl in I;
        repeat match type of I with
          | _ \/ _ => destruct I as [I|I]
          end;
        try contradiction; try discriminate I;
        try (now inversion I);
        try (exfalso; exact (N _ I eq_refl)).
Qed.

End Remote_install.

(** ** The look-ups and the list of units *)

Section Lookups.

Context {P : Package} {H : Host}.

Lemma Installed_loop_In (names : list string) (n : string) :
  Installed_loop names n = true <-> In n names.
Proof.
  induction names as [|x names IH]; simpl; [split; [discriminate|tauto]|].
  destruct (String.eqb_spec x n) as [->|N].
  - split; auto.
  - rewrite IH. split; [auto|]. intros [E|I]; [contradiction|exact I].
Qed.

Lemma Running_loop_first (units : list dbus.UnitStatus) (n : string) :
  Running_loop units n = true <->
  exists pre u post,
    units = pre ++ u :: post /\
    (forall v, In v pre -> dbus.Name v <> n) /\
    dbus.Name u = n /\
    dbus.LoadState u = "loaded"%string /\
    dbus.ActiveState u = "active"%string.
Proof.
  induction units as [|x units IH]; simpl.
  - split; [discriminate|]. intros (pre & u & post & E & _).
    now destruct pre.
  - destruct (String.eqb_spec (dbus.Name x) n) as [En|Nn].
    + rewrite andb_true_iff, !String.eqb_eq. split.
      * intros [L A]. exists [], x, units. simpl. tauto.
      * intros (pre & u & post & E & F & Eu & L & A).
        destruct pre as [|v pre]; simpl in E; inversion E; subst.
        { tauto. }
        { exfalso. apply (F v); simpl; auto. }
    + rewrite IH. split.
      * intros (pre & u & post & -> & F & Eu & L & A).
        exists (x :: pre), u, post. simpl. repeat split; auto.
        intros v [<-|I]; auto.
      * intros (pre & u & post & E & F & Eu & L & A).
        destruct pre as [|v pre]; simpl in E; inversion E; subst.
        { contradiction. }
        { exists pre, u, post. repeat split; auto.
          intros v' I. apply F. simpl. auto. }
Qed.

(** X8.  What the look-ups read off the list of units, when the
    manager lists them.  [Installed] is [true] exactly when some unit is
    called NAME.service.  [Running] is [true] exactly when the first
    unit called by the unit name of the service is loaded and active;
    later units of that name are not looked at.  For a service whose
    unit name is NAME.service, [Running] implies [Installed] on the same
    list. *)
Theorem lookups_read_the_unit_list :
  forall (s : Service) w c w1 units w2,
    newConn w = (inr c, w1) ->
    ListUnits c w1 = (inr units, w2) ->
    (result (Installed s w) = Returns true <->
     exists u, In u units /\ dbus.Name u = (Name s ++ ".service")%string) /\
    (result (Running s w) = Returns true <->
     exists pre u post,
       units = pre ++ u :: post /\
       (forall v, In v pre -> dbus.Name v <> UnitName s) /\
       dbus.Name u = UnitName s /\
       dbus.LoadState u = "loaded"%string /\
       dbus.ActiveState u = "active"%string) /\
    (UnitName s = (Name s ++ ".service")%string ->
     result (Running s w) = Returns true ->
     result (Installed s w) = Returns true).
Proof.
  intros s w c w1 units w2 Ec El.
  rewrite Installed_run, Running_run, Ec, El. unfold result; simpl.
  assert (I : Returns (Installed_loop (ListServices_loop units []) (Name s))
              = Returns true <->
              exists u, In u units /\
                        dbus.Name u = (Name s ++ ".service")%string).
  { rewrite <- (Listed_In (ListServices_loop_Listed units)).
    rewrite <- Installed_loop_In. split; [now inversion 1 | now intros ->]. }
  assert (R : Returns (Running_loop units (UnitName s)) = Returns true <->
              exists pre u post,
                units = pre ++ u :: post /\
                (forall v, In v pre -> dbus.Name v <> UnitName s) /\
                dbus.Name u = UnitName s /\
                dbus.LoadState u = "loaded"%string /\
                dbus.ActiveState u = "active"%string).
  { rewrite <- Running_loop_first. split; [now inversion 1 | now intros ->]. }
  split; [exact I|]. split; [exact R|].
  intros U Rt. apply I. apply R in Rt.
  destruct Rt as (pre & u & post & -> & _ & Eu & _).
  exists u. split; [apply in_elt | congruence].
Qed.

End Lookups.

(** ** Constructing and updating the controller *)

Section Construction.

Context {P : Package} {H : Host}.

Lemma setConf_naming (s : Service) (conf : common_Conf) :
  Name (fst (setConf s conf)) = Name s /\
  ConfName (fst (setConf s conf)) = ConfName s /\
  UnitName (fst (setConf s conf)) = UnitName s /\
  Dirname (fst (setConf s conf)) = Dirname s.
Proof.
  unfold setConf.
  destruct (normalize conf (path_Join [Dirname s; "exec-start.sh"%string]))
    as [normalConf data].
  destruct (validate (Name s) normalConf); simpl; auto.
Qed.

Lemma UpdateConfig_list_naming (confs : list common_Conf) : forall s,
  Name (fold_left UpdateConfig confs s) = Name s /\
  ConfName (fold_left UpdateConfig confs s) = ConfName s /\
  UnitName (fold_left UpdateConfig confs s) = UnitName s /\
  Dirname (fold_left UpdateConfig confs s) = Dirname s.
Proof.
  induction confs as [|conf confs IH]; intros s; simpl; [auto|].
  destruct (IH (UpdateConfig s conf)) as (A & B & C & D).
  destruct (setConf_naming s conf) as (A' & B' & C' & D').
  unfold UpdateConfig in *. rewrite A, B, C, D. auto.
Qed.

(** X9.  How updates compose.  Whether an update is accepted depends
    on the name and the directory of the controller only, which no update
    changes.  So an update repeated changes nothing more; an accepted
    update makes the updates before it irrelevant; a rejected one leaves
    in place what the updates before it gave.  After any sequence of
    updates the name, the unit name, the file name and the directory of
    the controller are the ones it started with. *)
Theorem UpdateConfig_composes :
  forall (s : Service) (c1 c2 : common_Conf),
    UpdateConfig (UpdateConfig s c1) c1 = UpdateConfig s c1 /\
    snd (setConf (UpdateConfig s c1) c2) = snd (setConf s c2) /\
    (snd (setConf s c2) = None ->
     UpdateConfig (UpdateConfig s c1) c2 = UpdateConfig s c2) /\
    (snd (setConf s c2) <> None ->
     UpdateConfig (UpdateConfig s c1) c2 = UpdateConfig s c1) /\
    (forall confs,
        Name (fold_left UpdateConfig confs s) = Name s /\
        ConfName (fold_left UpdateConfig confs s) = ConfName s /\
        UnitName (fold_left UpdateConfig confs s) = UnitName s /\
        Dirname (fold_left UpdateConfig confs s) = Dirname s).
Proof.
  intros s c1 c2.
  assert (Step : forall c,
             setConf (UpdateConfig s c1) c
             = match validate (Name s)
                       (fst (normalize c
                               (path_Join [Dirname s;
                                           "exec-start.sh"%string]))) with
               | Some err => (UpdateConfig s c1, Some (Traced err))
               | None => setConf s c
               end).
  { intros c. destruct (setConf_naming s c1) as (A & B & C & D).
    unfold UpdateConfig. unfold setConf at 1. rewrite A, B, C, D.
    unfold setConf at 3.
    destruct (normalize c (path_Join [Dirname s; "exec-start.sh"%string]))
      as [normalConf data]; simpl.
    destruct (validate (Name s) normalConf); reflexivity. }
  assert (Snd : forall c,
             snd (setConf s c)
             = Trace (validate (Name s)
                        (fst (normalize c
                                (path_Join [Dirname s;
                                            "exec-start.sh"%string]))))).
  { intros c. unfold setConf.
    destruct (normalize c (path_Join [Dirname s; "exec-start.sh"%string]))
      as [normalConf data]; simpl.
    destruct (validate (Name s) normalConf); reflexivity. }
  split; [|split; [|split; [|split]]].
  - unfold UpdateConfig at 1. rewrite Step.
    destruct (validate (Name s)
                (fst (normalize c1
                        (path_Join [Dirname s; "exec-start.sh"%string]))))
      eqn:V; [reflexivity|].
    unfold UpdateConfig, setConf.
    destruct (normalize c1 (path_Join [Dirname s; "exec-start.sh"%string]))
      as [normalConf data]; simpl in *. now rewrite V.
  - rewrite Step, Snd.
    destruct (validate (Name s)
                (fst (normalize c2
                        (path_Join [Dirname s; "exec-start.sh"%string]))))
      eqn:V; [reflexivity|].
    now rewrite Snd, V.
  - intros V. rewrite Snd in V. unfold UpdateConfig at 1. rewrite Step.
    destruct (validate (Name s)
                (fst (normalize c2
                        (path_Join [Dirname s; "exec-start.sh"%string]))));
      [discriminate|reflexivity].
  - intros V. rewrite Snd in V. unfold UpdateConfig at 1. rewrite Step.
    destruct (validate (Name s)
                (fst (normalize c2
                        (path_Join [Dirname s; "exec-start.sh"%string]))));
      [reflexivity|]. now contradiction V.
  - intros confs. apply UpdateConfig_list_naming.
Qed.

(** X10.  [NewService] asks for the data directory and calls nothing
    else.  Without data directory it returns no service and the error
    traced.  Otherwise it always returns a service, named [name], with
    unit name and file name [name ++ ".service"] and with the directory
    [path.Join(dataDir, "init", name)], and these stay through every
    later update; it returns an error next to the service exactly when
    the normalized configuration does not validate, and the service then
    holds the zero configuration and no script. *)
Theorem NewService_names_the_unit :
  forall (name : string) (conf : common_Conf) w,
    (forall e w1,
        findDataDir w = (inl e, w1) ->
        NewService name conf w
        = (Returns (None, Some (Traced e)), w1, [EvFindDataDir (Some e)])) /\
    (forall dataDir w1,
        findDataDir w = (inr dataDir, w1) ->
        exists s err,
          NewService name conf w
          = (Returns (Some s, err), w1, [EvFindDataDir None]) /\
          (forall confs,
              Name (fold_left UpdateConfig confs s) = name /\
              ConfName (fold_left UpdateConfig confs s)
              = (name ++ ".service")%string /\
              UnitName (fold_left UpdateConfig confs s)
              = (name ++ ".service")%string /\
              Dirname (fold_left UpdateConfig confs s)
              = path_Join [dataDir; "init"%string; name]) /\
          (err = None <->
           validate name
             (fst (normalize conf
                     (path_Join [path_Join [dataDir; "init"%string; name];
                                 "exec-start.sh"%string])))
           = None) /\
          (err <> None -> Conf s = zero_Conf /\ Script s = None) /\
          (err = None ->
           (Conf s, Script s)
           = normalize conf
               (path_Join [path_Join [dataDir; "init"%string; name];
                           "exec-start.sh"%string]))).
Proof.
  intros name conf w. split.
  - intros e w1 Ef. unfold NewService, bind, do_findDataDir, call.
    rewrite Ef. reflexivity.
  - intros dataDir w1 Ef. unfold NewService, bind, do_findDataDir, call.
    rewrite Ef. simpl. unfold setConf; simpl.
    destruct (normalize conf
                (path_Join [path_Join [dataDir; "init"%string; name];
                            "exec-start.sh"%string]))
      as [normalConf data]; simpl.
    destruct (validate name normalConf) as [e|] eqn:V; simpl.
    + eexists _, _. split; [reflexivity|].
      split; [intros confs;
              destruct (UpdateConfig_list_naming confs
                          {| Name := name; Conf := zero_Conf;
                             ConfName := (name ++ ".service")%string;
                             UnitName := (name ++ ".service")%string;
                             Dirname :=
                               path_Join [dataDir; "init"%string; name];
                             Script := None |}) as (A & B & C & D);
              simpl in *; auto|].
      split; [split; discriminate|].
      split; [auto | discriminate].
    + eexists _, _. split; [reflexivity|].
      split; [intros confs;
              destruct (UpdateConfig_list_naming confs
                          {| Name := name; Conf := normalConf;
                             ConfName := (name ++ ".service")%string;
                             UnitName := (name ++ ".service")%string;
                             Dirname :=
                               path_Join [dataDir; "init"%string; name];
                             Script := data |}) as (A & B & C & D);
              simpl in *; auto|].
      split; [split; reflexivity|].
      split; [intros N; now contradiction N | reflexivity].
Qed.

End Construction.

(** ** The charm loader *)

Section Loader.

Context {H : lpload.Host}.

Lemma wrong_usage_false (args : list string) :
  lpload.wrong_usage args = false <->
  exists prog c rest, args = [prog; String c rest] /\ c <> "-"%char.
Proof.
  unfold lpload.wrong_usage, lpload.first_is_dash. split.
  - intros E. apply orb_false_iff in E as [E D].
    apply orb_false_iff in E as [L Z].
    apply negb_false_iff, Nat.eqb_eq in L.
    destruct args as [|prog [|arg [|x args]]]; try discriminate.
    simpl in Z, D. destruct arg as [|c rest]; [discriminate|].
    simpl in D. exists prog, c, rest. split; [reflexivity|].
    now apply Ascii.eqb_neq.
  - intros (prog & c & rest & -> & N). simpl.
    now apply Ascii.eqb_neq.
Qed.

(** X11.  [load] accepts exactly the argument lists made of the
    program name and one address that is not empty and does not begin
    with a dash.  For any other list it returns the usage error and does
    not touch the store; for an accepted list it opens the store at that
    address first. *)
Theorem load_checks_its_arguments :
  forall (args : list string) w,
    (lpload.wrong_usage args = false <->
     exists prog c rest, args = [prog; String c rest] /\ c <> "-"%char) /\
    (lpload.wrong_usage args = true ->
     lpload.load args w
     = (Some (lpload.Errorf "usage: lpload <mongo addr>"), w, [])) /\
    (forall prog addr,
        args = [prog; addr] ->
        lpload.wrong_usage args = false ->
        exists err rest,
          snd (lpload.load args w) = lpload.EvOpen addr err :: rest).
Proof.
  intros args w. split; [apply wrong_usage_false|]. split.
  - intros U. unfold lpload.load. now rewrite U.
  - intros prog addr -> U. unfold lpload.load. rewrite U. simpl.
    destruct (lpload.Open addr w) as [[e|s] w1].
    + now eexists _, _.
    + destruct (lpload.PublishCharmsDistro s w1) as [err w2].
      now eexists _, _.
Qed.

(** X12.  Once the arguments are accepted: when the store does not
    open, [load] returns that error and neither publishes nor closes;
    when it opens, [load] publishes once and then closes the store, on
    every path.  It returns [nil] when the publication returned [nil]
    or a value of type [PublishBranchErrors], which it drops; any other
    error of the publication is returned as it is. *)
Theorem load_closes_and_forgives_branch_errors :
  forall (args : list string) w,
    lpload.wrong_usage args = false ->
    (forall e w1,
        lpload.Open (nth 1 args ""%string) w = (inl e, w1) ->
        lpload.load args w
        = (Some e, w1, [lpload.EvOpen (nth 1 args ""%string) (Some e)])) /\
    (forall s w1 err w2,
        lpload.Open (nth 1 args ""%string) w = (inr s, w1) ->
        lpload.PublishCharmsDistro s w1 = (err, w2) ->
        exists r,
          lpload.load args w
          = (r, lpload.Close s w2,
             [lpload.EvOpen (nth 1 args ""%string) None;
              lpload.EvPublish err; lpload.EvClose]) /\
          (r = None <->
           err = None \/
           exists branches, err = Some (lpload.PublishBranchErrors branches)) /\
          (r <> None -> r = err)).
Proof.
  intros args w U. split.
  - intros e w1 Eo. unfold lpload.load. now rewrite U, Eo.
  - intros s w1 err w2 Eo Ep. unfold lpload.load. rewrite U, Eo, Ep.
    eexists. split; [reflexivity|].
    destruct err as [[m|b|m]|]; simpl; split.
    + split; [discriminate|]. intros [D|[b D]]; discriminate.
    + auto.
    + split; [eauto|reflexivity].
    + intros N. now contradiction N.
    + split; [discriminate|]. intros [D|[b D]]; discriminate.
    + auto.
    + split; auto.
    + auto.
Qed.

End Loader.

(** * Examples on the scripted host *)

Section Examples.

#[local] Existing Instance Scripted.package.
#[local] Existing Instance Scripted.host.

(** The lister on a host with the units dbus.socket and foo.service. *)
Lemma ListServices_keeps_service_units_witness :
  newConn (Scripted.steady)
  = (inr tt, Scripted.steady) /\
  ListUnits tt (Scripted.steady)
  = (inr (Scripted.units (Scripted.steady)),
     Scripted.steady) /\
  exists names,
    result (ListServices (Scripted.steady))
    = Returns (inr names) /\
    Listed (Scripted.units (Scripted.steady)) names /\
    (forall names',
        Listed (Scripted.units (Scripted.steady)) names' ->
        names' = names) /\
    (forall n, In n names <->
               exists u,
                 In u (Scripted.units (Scripted.steady)) /\
                 dbus.Name u = (n ++ ".service")%string).
Proof.
  split; [reflexivity|]. split; [reflexivity|].
  apply (@ListServices_keeps_service_units Scripted.package Scripted.host
           (Scripted.steady) tt
           (Scripted.steady)
           (Scripted.units (Scripted.steady))
           (Scripted.steady)); reflexivity.
Defined.

(** The observations of foo on a host that cannot be reached, on one
    that does not list its units, on one that does not know the unit and
    on one that serves options without executable reference. *)
Lemma observations_hide_backend_failures_witness :
  (result (Installed Scripted.foo Scripted.dead) = Returns false /\
   result (Exists Scripted.foo Scripted.dead) = Returns false /\
   result (Running Scripted.foo Scripted.dead) = Returns false) /\
  (result (Installed Scripted.foo Scripted.mute) = Returns false /\
   result (Running Scripted.foo Scripted.mute) = Returns false) /\
  result (Exists Scripted.foo Scripted.empty) = Returns false /\
  result (Exists Scripted.foo Scripted.odd) = Returns false.
Proof.
  split; [|split; [|split]].
  - apply (proj1 (@observations_hide_backend_failures
                    Scripted.package Scripted.host Scripted.foo Scripted.dead)
             Scripted.down Scripted.empty).
    reflexivity.
  - apply (proj1 (proj2 (@observations_hide_backend_failures
                    Scripted.package Scripted.host Scripted.foo Scripted.mute))
             tt Scripted.mute (New "ListUnits: timeout") Scripted.mute);
      reflexivity.
  - apply (proj1 (proj2 (proj2 (@observations_hide_backend_failures
                    Scripted.package Scripted.host Scripted.foo
                    Scripted.empty)))
             tt Scripted.empty (New "no such unit") Scripted.empty);
      reflexivity.
  - apply (proj2 (proj2 (proj2 (@observations_hide_backend_failures
                    Scripted.package Scripted.host Scripted.foo Scripted.odd)))
             tt Scripted.odd [("Unit", "Description", "Foo service")]
             (New "missing ExecStart") Scripted.odd); reflexivity.
Defined.

(** The scripted host, once its connection script is used up, answers
    look-ups without changing state. *)
Lemma steady_quiet : quiet Scripted.steady.
Proof.
  split; [reflexivity|]. split; [reflexivity|].
  split; [reflexivity|]. intros c unit section. unfold getUnitOptions; simpl.
  unfold Scripted.getUnitOptions.
  now destruct (Scripted.options_of unit
                  (Scripted.unit_options Scripted.steady)).
Defined.

(** Installing foo where it is installed as desired. *)
Lemma Install_matching_is_noop_witness :
  Installed Scripted.foo Scripted.steady
  = (Returns true, Scripted.steady,
     [EvNewConn None; EvListUnits None; EvClose]) /\
  Exists Scripted.foo Scripted.steady
  = (Returns true, Scripted.steady,
     [EvNewConn None; EvGetUnitOptions "foo.service" "Service" None;
      EvClose]) /\
  Install Scripted.foo Scripted.steady
  = (Returns None, Scripted.steady,
     [EvNewConn None; EvListUnits None; EvClose;
      EvNewConn None; EvGetUnitOptions "foo.service" "Service" None;
      EvClose]) /\
  Exists Scripted.foo Scripted.steady
  = (Returns true, Scripted.steady,
     [EvNewConn None; EvGetUnitOptions "foo.service" "Service" None;
      EvClose]).
Proof.
  assert (Ei : Installed Scripted.foo Scripted.steady
               = (Returns true, Scripted.steady,
                  [EvNewConn None; EvListUnits None; EvClose]))
    by reflexivity.
  assert (Ee : Exists Scripted.foo Scripted.steady
               = (Returns true, Scripted.steady,
                  [EvNewConn None;
                   EvGetUnitOptions "foo.service" "Service" None; EvClose]))
    by reflexivity.
  destruct (@Install_matching_is_noop Scripted.package Scripted.host
              Scripted.foo _ _ _ _ _ Ei Ee)
    as (I & _ & _ & _ & Q).
  destruct (Q steady_quiet) as (_ & E2 & _).
  repeat split; assumption.
Defined.

(** C2 as stated fails: on the host [Scripted.unlisted] the service foo
    is not among the listed services, [Installed] is [false], and
    [Exists] is [true]. *)
Lemma Exists_true_for_unlisted_service :
  result (ListServices Scripted.unlisted) = Returns (inr []) /\
  result (Installed Scripted.foo Scripted.unlisted) = Returns false /\
  result (Exists Scripted.foo Scripted.unlisted) = Returns true.
Proof. repeat split. Qed.

(** The check of foo where its options are served and match. *)
Lemma Exists_iff_live_conf_equal_witness :
  result (Exists Scripted.foo Scripted.unlisted) = Returns true /\
  count is_ListUnits (log (Exists Scripted.foo Scripted.unlisted)) = 0.
Proof.
  destruct (@Exists_iff_live_conf_equal Scripted.package Scripted.host
              Scripted.foo Scripted.unlisted)
    as (E & _ & _ & C).
  split; [|exact C].
  apply (proj2 E).
  exists tt, Scripted.unlisted, (Scripted.foo_options "/usr/bin/foo"),
    Scripted.unlisted, Scripted.foo_conf.
  repeat split.
Defined.

(** C3 as stated fails: the update to [Scripted.bad_conf] is rejected
    by validation, the update to the configuration already held is
    accepted, and the caller is left with the same controller by both:
    nothing tells the failure from the success. *)
Lemma UpdateConfig_hides_validation_failure :
  snd (setConf Scripted.foo Scripted.bad_conf)
  = Some (Traced (New "missing ExecStart")) /\
  snd (setConf Scripted.foo Scripted.foo_conf) = None /\
  UpdateConfig Scripted.foo Scripted.bad_conf
  = UpdateConfig Scripted.foo Scripted.foo_conf.
Proof. repeat split. Qed.

(** Updating foo to the configuration it holds, and to one that does
    not validate. *)
Lemma UpdateConfig_replaces_or_keeps_witness :
  (UpdateConfig Scripted.foo Scripted.foo_conf = Scripted.foo /\
   snd (setConf Scripted.foo Scripted.foo_conf) = None) /\
  (UpdateConfig Scripted.foo Scripted.bad_conf = Scripted.foo /\
   snd (setConf Scripted.foo Scripted.bad_conf)
   = Some (Traced (New "missing ExecStart"))).
Proof.
  split.
  - apply (proj1 (@UpdateConfig_replaces_or_keeps
                    Scripted.package Scripted.foo
                    Scripted.foo_conf Scripted.foo_conf None eq_refl)).
    reflexivity.
  - destruct (proj2 (@UpdateConfig_replaces_or_keeps
                       Scripted.package Scripted.foo
                       Scripted.bad_conf Scripted.bad_conf None eq_refl)
                (New "missing ExecStart") eq_refl) as (U & E & _).
    split; assumption.
Defined.

(** Starting foo where it runs, stopping it where it is stopped,
    removing it where nothing is installed. *)
Lemma noop_cases_issue_no_request_witness :
  Start Scripted.foo Scripted.steady
  = (Returns None, Scripted.steady,
     [EvNewConn None; EvListUnits None; EvClose;
      EvNewConn None; EvListUnits None; EvClose]) /\
  Stop Scripted.foo (Scripted.stopped "done")
  = (Returns None, Scripted.stopped "done",
     [EvNewConn None; EvListUnits None; EvClose]) /\
  Remove Scripted.foo Scripted.empty
  = (Returns None, Scripted.empty,
     [EvNewConn None; EvListUnits None; EvClose]) /\
  Start Scripted.foo (Scripted.started "done")
  = (Returns None, Scripted.started "done",
     [EvNewConn None; EvListUnits None; EvClose;
      EvNewConn None; EvListUnits None; EvClose]).
Proof.
  split; [|split; [|split]].
  - apply (proj1 (@noop_cases_issue_no_request
                    Scripted.package Scripted.host
                    Scripted.foo Scripted.steady)
             Scripted.steady [EvNewConn None; EvListUnits None; EvClose]
             Scripted.steady [EvNewConn None; EvListUnits None; EvClose]);
      reflexivity.
  - apply (proj1 (proj2 (@noop_cases_issue_no_request
                    Scripted.package Scripted.host
                    Scripted.foo (Scripted.stopped "done")))
             (Scripted.stopped "done")
             [EvNewConn None; EvListUnits None; EvClose]);
      reflexivity.
  - apply (proj1 (proj2 (proj2 (@noop_cases_issue_no_request
                    Scripted.package Scripted.host
                    Scripted.foo Scripted.empty)))
             Scripted.empty [EvNewConn None; EvListUnits None; EvClose]);
      reflexivity.
  - apply (proj2 (proj2 (proj2 (@noop_cases_issue_no_request
                    Scripted.package Scripted.host
                    Scripted.foo (Scripted.started "done"))))
             tt (Scripted.started "done")
             (Scripted.units (Scripted.started "done"))
             (Scripted.started "done") tt (Scripted.started "done")
             (Scripted.started "done"));
      reflexivity.
Defined.

(** Starting foo with a job that completes with "done", stopping it
    with a job that completes with "failed", and both when the
    connection for the request cannot be opened. *)
Lemma request_settled_by_completion_witness :
  settled (log (Start Scripted.foo (Scripted.stopped "done")))
          (result (Start Scripted.foo (Scripted.stopped "done")))
          (Errorf "failed to start service %s" ["foo"%string]) None /\
  result (Start Scripted.foo (Scripted.stopped "done")) = Returns None /\
  settled (log (Stop Scripted.foo (Scripted.started "failed")))
          (result (Stop Scripted.foo (Scripted.started "failed")))
          (Errorf "failed to stop service %s" ["foo"%string]) None /\
  result (Stop Scripted.foo (Scripted.started "failed"))
  = Returns (Some (Errorf "failed to stop service %s" ["foo"%string])) /\
  result (Start Scripted.foo
            (Scripted.failing_after 2 (Scripted.stopped "done")))
  = Returns (Some (Traced Scripted.down)) /\
  result (Stop Scripted.foo
            (Scripted.failing_after 1 (Scripted.started "done")))
  = Returns (Some (Traced Scripted.down)).
Proof.
  pose (up := @Start Scripted.package Scripted.host Scripted.foo
                (Scripted.stopped "done")).
  pose (dn := @Stop Scripted.package Scripted.host Scripted.foo
                (Scripted.started "failed")).
  assert (A : settled (log up) (result up)
                (Errorf "failed to start service %s" ["foo"%string]) None).
  { apply (proj1 (@request_settled_by_completion
                    Scripted.package Scripted.host
                    Scripted.foo (Scripted.stopped "done")
                    (result up) (final up) (log up))
             eq_refl "foo.service"%string "fail"%string None).
    cbv. tauto. }
  assert (B : settled (log dn) (result dn)
                (Errorf "failed to stop service %s" ["foo"%string]) None).
  { apply (proj1 (proj2 (@request_settled_by_completion
                    Scripted.package Scripted.host
                    Scripted.foo (Scripted.started "failed")
                    (result dn) (final dn) (log dn)))
             eq_refl "foo.service"%string "fail"%string None).
    cbv. tauto. }
  split; [exact A|]. split; [reflexivity|].
  split; [exact B|]. split; [reflexivity|].
  split.
  - apply (proj1 (proj2 (proj2 (proj2 (proj2
             (@request_settled_by_completion
                Scripted.package Scripted.host Scripted.foo
                (Scripted.failing_after 2 (Scripted.stopped "done"))
                Blocks Scripted.empty []))))))
      with (w1 := Scripted.failing_after 1 (Scripted.stopped "done"))
           (t1 := [EvNewConn None; EvListUnits None; EvClose])
           (w2 := Scripted.failing_after 0 (Scripted.stopped "done"))
           (t2 := [EvNewConn None; EvListUnits None; EvClose])
           (w3 := Scripted.stopped "done");
      reflexivity.
  - apply (proj2 (proj2 (proj2 (proj2 (proj2
             (@request_settled_by_completion
                Scripted.package Scripted.host Scripted.foo
                (Scripted.failing_after 1 (Scripted.started "done"))
                Blocks Scripted.empty []))))))
      with (w1 := Scripted.failing_after 0 (Scripted.started "done"))
           (t1 := [EvNewConn None; EvListUnits None; EvClose])
           (w2 := Scripted.started "done");
      reflexivity.
Defined.

(** Removing foo, and removing it where disabling is refused. *)
Lemma Remove_disables_before_deleting_witness :
  (result (Remove Scripted.foo Scripted.outdated) = Returns None /\
   exists pre post,
     log (Remove Scripted.foo Scripted.outdated)
     = pre ++
       EvDisableUnitFiles ["foo.service"%string] false None ::
       EvRemoveAll "/var/lib/juju/init/foo" None :: post /\
     count is_teardown pre = 0 /\ count is_teardown post = 0) /\
  result (Remove Scripted.foo (Scripted.with_disable_err Scripted.outdated))
  = Returns (Some (Traced (New "DisableUnitFiles: access denied"))) /\
  count is_delete
    (log (Remove Scripted.foo (Scripted.with_disable_err Scripted.outdated)))
  = 0.
Proof.
  pose (ok := @Remove Scripted.package Scripted.host Scripted.foo
                Scripted.outdated).
  pose (ko := @Remove Scripted.package Scripted.host Scripted.foo
                (Scripted.with_disable_err Scripted.outdated)).
  split.
  - destruct (@Remove_disables_before_deleting
                Scripted.package Scripted.host
                Scripted.foo Scripted.outdated Scripted.outdated
                [EvNewConn None; EvListUnits None; EvClose]
                (result ok) (final ok) (log ok)
                eq_refl eq_refl) as (D & _).
    destruct (D "/var/lib/juju/init/foo"%string None) as (_ & R & X).
    + cbv. tauto.
    + split; [exact R | exact X].
  - destruct (@Remove_disables_before_deleting
                Scripted.package Scripted.host
                Scripted.foo (Scripted.with_disable_err Scripted.outdated)
                (Scripted.with_disable_err Scripted.outdated)
                [EvNewConn None; EvListUnits None; EvClose]
                (result ko) (final ko) (log ko)
                eq_refl eq_refl) as (_ & A & _).
    apply (A ["foo.service"%string] false
             (New "DisableUnitFiles: access denied")).
    cbv. tauto.
Defined.

(** Installing foo over a unit that runs an older command line: the
    old unit is stopped, then disabled and deleted, then the new unit is
    written and enabled. *)
Lemma Install_supersedes_old_unit_witness :
  Installed Scripted.foo Scripted.outdated
  = (Returns true, Scripted.outdated,
     [EvNewConn None; EvListUnits None; EvClose]) /\
  check Scripted.foo Scripted.outdated
  = (Returns (false, None), Scripted.outdated,
     [EvNewConn None; EvGetUnitOptions "foo.service" "Service" None;
      EvClose]) /\
  exists ts tr t4,
    log (Install Scripted.foo Scripted.outdated)
    = [EvNewConn None; EvListUnits None; EvClose] ++
      [EvNewConn None; EvGetUnitOptions "foo.service" "Service" None;
       EvClose] ++
      [EvNewConn None; EvListUnits None; EvClose] ++ ts ++
      [EvNewConn None; EvListUnits None; EvClose] ++ tr ++ t4 /\
    stops Scripted.foo ts (Returns None) /\
    removes Scripted.foo tr (Returns None) /\
    installs Scripted.foo t4 (Returns None) /\
    result (Install Scripted.foo Scripted.outdated) = Returns None.
Proof.
  split; [reflexivity|]. split; [reflexivity|].
  pose (go := @Install Scripted.package Scripted.host Scripted.foo
                Scripted.outdated).
  destruct (@Install_supersedes_old_unit
              Scripted.package Scripted.host
              Scripted.foo Scripted.outdated Scripted.outdated
              [EvNewConn None; EvListUnits None; EvClose]
              Scripted.outdated
              [EvNewConn None; EvGetUnitOptions "foo.service" "Service" None;
               EvClose]
              (result go) (final go) (log go)
              eq_refl eq_refl eq_refl)
    as (running & wq & tq & ts & rs & ws & Er & Es & Ds & _ & _ & _ & M).
  cbv in Er. inversion Er; subst running wq tq; clear Er.
  cbv in Es. inversion Es; subst rs ws ts; clear Es.
  destruct M as (installed & wi & ti & tr & rr & w3 & Ei & Em & Dm & _
                 & _ & _ & M).
  cbv in Ei. inversion Ei; subst installed wi ti; clear Ei.
  cbv in Em. inversion Em; subst rr w3 tr; clear Em.
  destruct M as (t4 & E4 & I4 & _ & Et).
  eexists _, _, t4.
  split; [exact Et|]. split; [exact Ds|]. split; [exact Dm|].
  split; [|reflexivity].
  exact I4.
Defined.

(** Stopping, removing, starting and installing foo where the manager
    cannot be reached. *)
Lemma failed_lookup_reads_as_absent_witness :
  Stop Scripted.foo Scripted.dead
  = (Returns None, Scripted.empty, [EvNewConn (Some Scripted.down)]) /\
  Remove Scripted.foo Scripted.dead
  = (Returns None, Scripted.empty, [EvNewConn (Some Scripted.down)]) /\
  Start Scripted.foo Scripted.dead
  = (Returns (Some (NotFoundf "service foo" [])), Scripted.empty,
     [EvNewConn (Some Scripted.down)]) /\
  log (Install Scripted.foo Scripted.dead)
  = [EvNewConn (Some Scripted.down)] ++
    log (Install_unit Scripted.foo Scripted.empty).
Proof.
  destruct (@failed_lookup_reads_as_absent
              Scripted.package Scripted.host Scripted.foo
              Scripted.dead Scripted.empty [EvNewConn (Some Scripted.down)])
    as (A & B & C & _ & _ & D).
  - left. exists Scripted.down. split; reflexivity.
  - repeat split; assumption.
Defined.

(** Installing foo where it is listed and its options cannot be
    deserialized. *)
Lemma Install_stops_at_unreadable_unit_witness :
  Install Scripted.foo Scripted.unreadable
  = (Returns (Some (Traced (Traced (Traced (New "missing ExecStart"))))),
     Scripted.unreadable,
     [EvNewConn None; EvListUnits None; EvClose] ++
     [EvNewConn None; EvGetUnitOptions "foo.service" "Service" None;
      EvClose]) /\
  Exists Scripted.foo Scripted.unreadable
  = (Returns false, Scripted.unreadable,
     [EvNewConn None; EvGetUnitOptions "foo.service" "Service" None;
      EvClose]).
Proof.
  destruct (@Install_stops_at_unreadable_unit
              Scripted.package Scripted.host Scripted.foo
              Scripted.unreadable Scripted.unreadable
              [EvNewConn None; EvListUnits None; EvClose]
              false (Traced (Traced (New "missing ExecStart")))
              Scripted.unreadable
              [EvNewConn None; EvGetUnitOptions "foo.service" "Service" None;
               EvClose]
              eq_refl eq_refl) as (A & B & _).
  split; assumption.
Defined.

(** Stopping and removing foo where the stop job completes with
    "failed", and where foo is stopped already. *)
Lemma StopAndRemove_stops_at_first_failure_witness :
  StopAndRemove Scripted.foo (Scripted.started "failed")
  = (Returns (Some (Traced (Errorf "failed to stop service %s"
                                   ["foo"%string]))),
     Scripted.started "failed",
     [EvNewConn None; EvListUnits None; EvClose;
      EvNewConn None; EvNewChan; EvStopUnit "foo.service" "fail" None;
      EvRecv (Some "failed"%string); EvClose]) /\
  result (StopAndRemove Scripted.foo (Scripted.stopped "done"))
  = Returns None.
Proof.
  split.
  - apply (proj1 (@StopAndRemove_stops_at_first_failure
                    Scripted.package Scripted.host Scripted.foo
                    (Scripted.started "failed") _ _ _ eq_refl)
             (Errorf "failed to stop service %s" ["foo"%string]) eq_refl).
  - pose (rm := @Remove Scripted.package Scripted.host Scripted.foo
                  (Scripted.stopped "done")).
    rewrite (proj2 (proj2 (@StopAndRemove_stops_at_first_failure
                             Scripted.package Scripted.host Scripted.foo
                             (Scripted.stopped "done") _ _ _ eq_refl))
               eq_refl None (final rm) (log rm) eq_refl).
    reflexivity.
Defined.

(** Installing bar, which has a script, where nothing is installed. *)
Lemma Install_writes_then_enables_witness :
  exists t2,
    log (Install Scripted.bar Scripted.empty)
    = [EvNewConn None; EvListUnits None; EvClose] ++ t2 /\
    installs Scripted.bar t2 (result (Install Scripted.bar Scripted.empty)) /\
    t2 = EvMkdirAll "/var/lib/juju/init/bar" None ::
         script_file Scripted.bar ++
         [EvCreateFile "/var/lib/juju/init/bar/bar.service"
            (list_byte_of_string
               ("[Unit]" ++ Scripted.nl ++ "Description=Bar service" ++
                Scripted.nl ++ "[Service]" ++ Scripted.nl ++
                "ExecStart=/var/lib/juju/init/bar/exec-start.sh" ++
                Scripted.nl)) perm_0644 None;
          EvNewConn None;
          EvEnableUnitFiles ["/var/lib/juju/init/bar/bar.service"%string]
            false true None;
          EvClose].
Proof.
  destruct (proj2 (@Install_writes_then_enables
                     Scripted.package Scripted.host Scripted.bar
                     Scripted.empty)
              Scripted.empty [EvNewConn None; EvListUnits None; EvClose]
              eq_refl) as (t2 & L & I & _ & _ & S).
  exists t2. split; [exact L|]. split; [exact I|].
  destruct (S eq_refl) as (data & Es & ->).
  inversion Es. reflexivity.
Defined.

(** The commands for foo, and for a controller whose configuration
    does not serialize. *)
Lemma InstallCommands_carry_the_unit_file_witness :
  InstallCommands Scripted.raw
  = inl (Traced (New "configuration not normalized")) /\
  InstallCommands Scripted.foo
  = inr [Some ("cat >> /tmp/foo.service << 'EOF'" ++ newline ++
               "[Unit]" ++ newline ++ "Description=Foo service" ++ newline ++
               "[Service]" ++ newline ++ "ExecStart=/usr/bin/foo" ++
               newline ++ "EOF" ++ newline)%string;
         Some "systemd start /tmp/foo.service"%string].
Proof.
  split.
  - apply (proj1 (@InstallCommands_carry_the_unit_file
                    Scripted.package Scripted.host Scripted.raw)
             (New "configuration not normalized") eq_refl).
  - destruct (proj2 (@InstallCommands_carry_the_unit_file
                       Scripted.package Scripted.host Scripted.foo)
                _ eq_refl) as (C & _).
    rewrite C. reflexivity.
Defined.

(** The look-ups of foo where it is listed as loaded and active. *)
Lemma lookups_read_the_unit_list_witness :
  result (Running Scripted.foo Scripted.steady) = Returns true /\
  result (Installed Scripted.foo Scripted.steady) = Returns true.
Proof.
  destruct (@lookups_read_the_unit_list
              Scripted.package Scripted.host Scripted.foo
              Scripted.steady tt Scripted.steady
              (Scripted.units Scripted.steady) Scripted.steady
              eq_refl eq_refl) as (_ & _ & RI).
  split; [reflexivity|]. apply RI; reflexivity.
Defined.

(** Updating foo to a configuration that does not validate and then to
    the one it holds, and the other way round. *)
Lemma UpdateConfig_composes_witness :
  UpdateConfig (UpdateConfig Scripted.foo Scripted.bad_conf)
    Scripted.foo_conf
  = UpdateConfig Scripted.foo Scripted.foo_conf /\
  UpdateConfig (UpdateConfig Scripted.foo Scripted.foo_conf)
    Scripted.bad_conf
  = UpdateConfig Scripted.foo Scripted.foo_conf.
Proof.
  split.
  - apply (proj1 (proj2 (proj2 (@UpdateConfig_composes
                                  Scripted.package Scripted.foo
                                  Scripted.bad_conf Scripted.foo_conf)))).
    reflexivity.
  - apply (proj1 (proj2 (proj2 (proj2 (@UpdateConfig_composes
                                  Scripted.package Scripted.foo
                                  Scripted.foo_conf Scripted.bad_conf))))).
    discriminate.
Defined.

(** Constructing foo, and constructing it where the data directory is
    not found. *)
Lemma NewService_names_the_unit_witness :
  @NewService Scripted.package Scripted.homeless "foo" Scripted.foo_conf
    Scripted.empty
  = (Returns (None, Some (Traced (New "unknown series"))), Scripted.empty,
     [EvFindDataDir (Some (New "unknown series"))]) /\
  exists s err,
    NewService "foo" Scripted.foo_conf Scripted.empty
    = (Returns (Some s, err), Scripted.empty, [EvFindDataDir None]) /\
    UnitName (UpdateConfig s Scripted.bad_conf) = "foo.service"%string /\
    Dirname (UpdateConfig s Scripted.bad_conf)
    = "/var/lib/juju/init/foo"%string.
Proof.
  split.
  - apply (proj1 (@NewService_names_the_unit
                    Scripted.package Scripted.homeless
                    "foo"%string Scripted.foo_conf Scripted.empty)
             (New "unknown series") Scripted.empty eq_refl).
  - destruct (proj2 (@NewService_names_the_unit
                       Scripted.package Scripted.host
                       "foo"%string Scripted.foo_conf Scripted.empty)
                "/var/lib/juju"%string Scripted.empty eq_refl)
      as (s & err & E & N & _).
    exists s, err. split; [exact E|].
    destruct (N [Scripted.bad_conf]) as (_ & _ & U & D).
    split; [exact U | exact D].
Defined.

(** Loading with an address, with an option in its place and with no
    argument. *)
Lemma load_checks_its_arguments_witness :
  (exists err rest,
      snd (@lpload.load lpload.scripted ["lpload"; "localhost:27017"]%string
             None)
      = lpload.EvOpen "localhost:27017" err :: rest) /\
  @lpload.load lpload.scripted ["lpload"; "-h"]%string None
  = (Some (lpload.Errorf "usage: lpload <mongo addr>"), None, []) /\
  @lpload.load lpload.scripted ["lpload"%string] None
  = (Some (lpload.Errorf "usage: lpload <mongo addr>"), None, []).
Proof.
  split; [|split].
  - apply (proj2 (proj2 (@load_checks_its_arguments lpload.scripted
                           ["lpload"; "localhost:27017"]%string None))
             "lpload"%string "localhost:27017"%string eq_refl eq_refl).
  - apply (proj1 (proj2 (@load_checks_its_arguments lpload.scripted
                           ["lpload"; "-h"]%string None)) eq_refl).
  - apply (proj1 (proj2 (@load_checks_its_arguments lpload.scripted
                           ["lpload"%string] None)) eq_refl).
Defined.

(** Loading where the store is down, and where the publication ends
    with branch errors. *)
Lemma load_closes_and_forgives_branch_errors_witness :
  @lpload.load lpload.scripted ["lpload"; "down"]%string None
  = (Some (lpload.Other "no reachable servers"), None,
     [lpload.EvOpen "down" (Some (lpload.Other "no reachable servers"))]) /\
  exists r,
    @lpload.load lpload.scripted ["lpload"; "localhost:27017"]%string
      (Some (lpload.PublishBranchErrors [("lp:foo", "bad branch")]%string))
    = (r, Some (lpload.PublishBranchErrors [("lp:foo", "bad branch")]%string),
       [lpload.EvOpen "localhost:27017" None;
        lpload.EvPublish
          (Some (lpload.PublishBranchErrors
                   [("lp:foo", "bad branch")]%string));
        lpload.EvClose]) /\
    r = None.
Proof.
  split.
  - apply (proj1 (@load_closes_and_forgives_branch_errors lpload.scripted
                    ["lpload"; "down"]%string None eq_refl)
             (lpload.Other "no reachable servers") None eq_refl).
  - destruct (proj2 (@load_closes_and_forgives_branch_errors lpload.scripted
                       ["lpload"; "localhost:27017"]%string
                       (Some (lpload.PublishBranchErrors
                                [("lp:foo", "bad branch")]%string))
                       eq_refl)
                tt _ _ _ eq_refl eq_refl) as (r & E & N & _).
    exists r. split; [exact E|]. apply N. right. now eexists.
Defined.

(** C5, where the code departs from it.  The service named "50%%" is
    not installed: [Start] returns a not-found error and asks nothing of
    the backend beyond the look-up, but the name went in as the format
    of [NotFoundf], so the message reads "service 50% not found" and the
    name of the service does not occur in it.  The errors of a failed
    start or stop take the name as an operand of [%s] and keep it. *)
Theorem Start_not_installed_misnames_the_service :
  Start Scripted.percent Scripted.empty
  = (Returns (Some (NotFoundf "service 50%%" [])), Scripted.empty,
     [EvNewConn None; EvListUnits None; EvClose]) /\
  IsNotFound (NotFoundf "service 50%%" []) = true /\
  count is_start (log (Start Scripted.percent Scripted.empty)) = 0 /\
  Error (NotFoundf "service 50%%" [])
  = Some "service 50% not found"%string /\
  String.index 0 (Name Scripted.percent) "service 50% not found" = None /\
  Error (Errorf "failed to start service %s" [Name Scripted.percent])
  = Some "failed to start service 50%%"%string.
Proof.
  assert (Ei : Installed Scripted.percent Scripted.empty
               = (Returns false, Scripted.empty,
                  [EvNewConn None; EvListUnits None; EvClose]))
    by reflexivity.
  destruct (@Start_not_installed Scripted.package Scripted.host
              Scripted.percent _ _ _ Ei) as (S & N & _ & _ & _ & C).
  split; [exact S|]. split; [exact N|].
  split; [rewrite S; exact C|].
  repeat split.
Qed.

End Examples.
